(** * tokken: the ERC20 deployment command, [cmd/erc20/main.go]

    A shallow embedding of the deployment command and the properties of
    its supply scaling, transactor construction, confirmation wait and
    result report.

    Conventions.
    - Go's fixed-width integers are [Z] with the wrap-around of every
      conversion written out ([int64_of_uint64], [uint8_of_uint]).
    - A [big.Int] is [Z]; a possibly-nil pointer to one is [option Z].
    - A Go [string] is a byte sequence: [String.string].
    - A Go [(T, error)] pair is [result T]; an [error] is its message.
    - [float64] is IEEE 754 binary64, [SpecFloat.spec_float] at
      precision 53.
    - Everything outside the process (standard input, the RPC endpoint,
      the deployed contract) is a record of answers, [Env]; each call
      the program makes is appended to a trace of [event]s. *)

From Stdlib Require Import ZArith List String Ascii Bool Lia.
From Stdlib Require Import Floats.SpecFloat.
Import ListNotations.
Local Open Scope string_scope.
Local Open Scope Z_scope.

(** ** Go values *)

(** A Go [(T, error)] return. *)
Inductive result (A : Type) : Type :=
| Ok (a : A)
| Err (msg : string).
Arguments Ok {A} a.
Arguments Err {A} msg.

Definition int64_min : Z := - 2 ^ 63.
Definition int64_max : Z := 2 ^ 63 - 1.
Definition uint64_max : Z := 2 ^ 64 - 1.

(** [int64(x)] for [x] a [uint64]: same 64 bits, read in two's
    complement. *)
Definition int64_of_uint64 (x : Z) : Z :=
  if x <? 2 ^ 63 then x else x - 2 ^ 64.

(** [uint8(x)] for [x] a [uint]: the low eight bits. *)
Definition uint8_of_uint (x : Z) : Z := x mod 256.

(** [int64(x)] for [x] a [uint8]: always representable. *)
Definition int64_of_uint8 (x : Z) : Z := x.

(** [big.NewInt(x)]. *)
Definition big_NewInt (x : Z) : Z := x.

(** [new(big.Int).Exp(x, y, nil)]: [x**y], and 1 when [y <= 0]. *)
Definition big_Exp (x y : Z) : Z :=
  if y <=? 0 then 1 else x ^ y.

(** ** [math/big]: [Int.SetString(s, base)] for a base in 2..62

    The scanner reads the string byte by byte; the reader is the
    unread rest of the string, so [ReadByte] takes its head and
    [UnreadByte] leaves it in place.  With a non-zero base there is no
    prefix and no [_] separator.  The library collects digits in
    machine words before adding them to the result; on unbounded
    naturals that is the same sum, so the accumulator here is the
    number itself. *)

Definition MaxBase : Z := 62.
Definition maxBaseSmall : Z := 36.

Definition byte_val (ch : ascii) : Z := Z.of_N (N_of_ascii ch).

Definition in_range (lo hi : ascii) (ch : ascii) : bool :=
  (byte_val lo <=? byte_val ch) && (byte_val ch <=? byte_val hi).

(** [scanSign]: an optional leading [+] or [-]. *)
Definition scanSign (r : string) : result (bool * string) :=
  match r with
  | EmptyString => Err "EOF"
  | String ch r' =>
      if Ascii.eqb ch "-" then Ok (true, r')
      else if Ascii.eqb ch "+" then Ok (false, r')
      else Ok (false, r)
  end.

(** The digit value [d1] of a byte in base [b]. *)
Definition digit_value (b : Z) (ch : ascii) : Z :=
  if in_range "0" "9" ch then byte_val ch - byte_val "0"
  else if in_range "a" "z" ch then byte_val ch - byte_val "a" + 10
  else if in_range "A" "Z" ch then
    if b <=? maxBaseSmall then byte_val ch - byte_val "A" + 10
    else byte_val ch - byte_val "A" + maxBaseSmall
  else MaxBase + 1.

(** The digit loop of [nat.scan]: stops at the end of input or at the
    first byte that is not a digit of base [b], which stays unread. *)
Fixpoint scan_digits (b : Z) (r : string) (z : Z) (count : nat)
  : Z * nat * string :=
  match r with
  | EmptyString => (z, count, r)
  | String ch r' =>
      let d1 := digit_value b ch in
      if d1 >=? b then (z, count, r)
      else scan_digits b r' (z * b + d1) (S count)
  end.

Definition nat_scan (b : Z) (r : string) : result (Z * string) :=
  let '(z, count, r') := scan_digits b r 0 0%nat in
  match count with
  | O => Err "number has no digits"
  | S _ => Ok (z, r')
  end.

(** [Int.scan]: sign, then mantissa; zero has no sign. *)
Definition Int_scan (b : Z) (r : string) : result (Z * string) :=
  match scanSign r with
  | Err e => Err e
  | Ok (neg, r1) =>
      match nat_scan b r1 with
      | Err e => Err e
      | Ok (abs, r2) =>
          Ok (if (0 <? abs) && neg then - abs else abs, r2)
      end
  end.

(** [SetString]: the scan must succeed and consume the whole string.
    [None] is the [ok == false] return. *)
Definition big_SetString (s : string) (base : Z) : option Z :=
  match Int_scan base s with
  | Err _ => None
  | Ok (z, EmptyString) => Some z
  | Ok (_, String _ _) => None
  end.

(** ** [parseSupply] *)

Definition parseSupply (supply : string) (decimals : Z) : result Z :=
  match big_SetString supply 10 with
  | None => Err ("invalid supply value: " ++ supply)
  | Some value =>
      let multiplier :=
        big_Exp (big_NewInt 10) (big_NewInt (int64_of_uint8 decimals)) in
      Ok (value * multiplier)
  end.

(** ** What a decimal string denotes

    These follow the words of the specification, not the code. *)

Definition is_digit (ch : ascii) : bool := in_range "0" "9" ch.

Fixpoint all_digits (s : string) : bool :=
  match s with
  | EmptyString => true
  | String ch s' => is_digit ch && all_digits s'
  end.

(** A non-negative decimal integer string: one or more digits. *)
Definition is_decimal (s : string) : bool :=
  match s with
  | EmptyString => false
  | String _ _ => all_digits s
  end.

(** Positional value, most significant digit first. *)
Fixpoint decimal_value (s : string) : Z :=
  match s with
  | EmptyString => 0
  | String ch s' =>
      (byte_val ch - 48) * 10 ^ Z.of_nat (String.length s')
      + decimal_value s'
  end.

(** What [SetString] accepts in base 10: digits after at most one
    sign. *)
Definition is_signed_decimal (s : string) : bool :=
  match s with
  | EmptyString => false
  | String ch s' =>
      if Ascii.eqb ch "-" || Ascii.eqb ch "+" then is_decimal s'
      else is_decimal s
  end.

(** ** [strings] and [encoding/hex] *)

Definition strings_HasPrefix (s prefix : string) : bool :=
  String.prefix prefix s.

(** The slice [s[n:]]. *)
Fixpoint string_from (n : nat) (s : string) : string :=
  match n, s with
  | O, _ => s
  | S n', String _ s' => string_from n' s'
  | S _, EmptyString => EmptyString
  end.

Definition strings_TrimPrefix (s prefix : string) : string :=
  if strings_HasPrefix s prefix then string_from (String.length prefix) s
  else s.

Inductive hex_error : Type :=
| InvalidByteError (b : ascii)
| ErrLength.

(** [fromHexChar]: the value of one hexadecimal digit. *)
Definition fromHexChar (c : ascii) : option Z :=
  if in_range "0" "9" c then Some (byte_val c - byte_val "0")
  else if in_range "a" "f" c then Some (byte_val c - byte_val "a" + 10)
  else if in_range "A" "F" c then Some (byte_val c - byte_val "A" + 10)
  else None.

(** [hex.DecodeString]: two digits per byte; an invalid digit is
    reported before an odd length. *)
Fixpoint hex_DecodeString (src : string) : list Z + hex_error :=
  match src with
  | EmptyString => inl []
  | String p EmptyString =>
      match fromHexChar p with
      | None => inr (InvalidByteError p)
      | Some _ => inr ErrLength
      end
  | String p (String q rest) =>
      match fromHexChar p, fromHexChar q with
      | None, _ => inr (InvalidByteError p)
      | Some _, None => inr (InvalidByteError q)
      | Some a, Some b =>
          match hex_DecodeString rest with
          | inl bytes => inl ((a * 16 + b) :: bytes)
          | inr e => inr e
          end
      end
  end.

(** [new(big.Int).SetBytes(d)]: big-endian. *)
Definition big_SetBytes (d : list Z) : Z :=
  fold_left (fun acc b => acc * 256 + b) d 0.

(** ** [float64] *)

Definition float64 : Type := spec_float.

Definition f64_mul : float64 -> float64 -> float64 := SFmul 53 1024.
Definition f64_ltb : float64 -> float64 -> bool := SFltb.

(** The [float64] nearest to an integer constant. *)
Definition f64_of_Z (n : Z) : float64 := binary_normalize 53 1024 n 0 false.

(** [int64(x)] for [x] a [float64]: the fraction is discarded.  When
    the value is not representable (too large, infinite, NaN) Go leaves
    the result to the implementation: [indefinite]. *)
Definition int64_of_float64 (indefinite : Z) (x : float64) : Z :=
  match x with
  | S754_zero _ => 0
  | S754_finite s m e =>
      let magnitude := Z.shiftl (Zpos m) e in
      let v := if s then - magnitude else magnitude in
      if (int64_min <=? v) && (v <=? int64_max) then v else indefinite
  | S754_infinity _ | S754_nan => indefinite
  end.

(** ** Accounts, keys and the transactor *)

Definition Address : Type := Z.   (* common.Address, 20 bytes *)
Definition Hash : Type := Z.      (* common.Hash, 32 bytes *)

Record ecdsa_PublicKey : Type := {
  X : Z;
  Y : Z
}.

Record ecdsa_PrivateKey : Type := {
  PublicKey : ecdsa_PublicKey;
  D : Z
}.

(** The dynamic type held by a [crypto.PublicKey] interface value. *)
Inductive crypto_PublicKey : Type :=
| ptr_ecdsa_PublicKey (k : ecdsa_PublicKey)
| other_PublicKey.

Definition Public (priv : ecdsa_PrivateKey) : crypto_PublicKey :=
  ptr_ecdsa_PublicKey (PublicKey priv).

(** The type assertion [publicKey.( *ecdsa.PublicKey)]. *)
Definition as_ecdsa_PublicKey (k : crypto_PublicKey) : option ecdsa_PublicKey :=
  match k with
  | ptr_ecdsa_PublicKey pk => Some pk
  | other_PublicKey => None
  end.

(** The order of the secp256k1 group. *)
Definition secp256k1N : Z :=
  0xFFFFFFFFFFFFFFFFFFFFFFFFFFFFFFFEBAAEDCE6AF48A03BBFD25E8CD0364141.

(** [bind.TransactOpts]; [None] is a nil pointer.  The signer closes
    over the key and the chain identifier. *)
Record TransactOpts : Type := {
  From : Address;
  Nonce : option Z;
  SignerKey : Z;
  SignerChainID : Z;
  Value : option Z;
  GasPrice : option Z;
  GasLimit : Z
}.

Record Receipt : Type := {
  Status : Z;
  GasUsed : Z
}.

(** The bound contract: the answers of its three read-only calls. *)
Record ERC20Token : Type := {
  Name : result string;
  Symbol : result string;
  Decimals : result Z
}.

(** [ethclient.Client], as the answers the endpoint gives.  The k-th
    receipt query (counting from 0) is answered by
    [TransactionReceipt k].  [DeployERC20Token] is the generated
    contract binding, which signs and broadcasts the creation
    transaction. *)
Record Client : Type := {
  PendingNonceAt : Address -> result Z;
  ChainID : result Z;
  SuggestGasPrice : result Z;
  DeployERC20Token :
    TransactOpts -> string -> string -> Z -> Z ->
    result (Address * Hash * ERC20Token);
  TransactionReceipt : nat -> Hash -> result Receipt
}.

(** Everything the program takes from outside itself: library
    functions left abstract (curve multiplication, address hashing,
    Unicode trimming), the platform's out-of-range float conversion,
    standard input and the network. *)
Record Env : Type := {
  ScalarBaseMult : list Z -> option ecdsa_PublicKey;
  PubkeyToAddress : ecdsa_PublicKey -> Address;
  strings_TrimSpace : string -> string;
  float_indefinite : Z;
  stdin_ReadString : result string;
  ethclient_Dial : string -> result Client
}.

(** [context.Context]: a deadline in ticks of the one-second query
    ticker, if any. *)
Record Context : Type := {
  deadline : option nat
}.

(** [context.Background()]: never cancelled, no deadline. *)
Definition context_Background : Context := {| deadline := None |}.

Definition ctx_Done (ctx : Context) (now : nat) : bool :=
  match deadline ctx with
  | Some d => (d <=? now)%nat
  | None => false
  end.

(** ** The process: flags, trace, outcome *)

(** The package-level flag variables, after [flag.Parse()]. *)
Record Flags : Type := {
  rpcURL : string;
  privateKey : string;
  tokenName : string;
  tokenSymbol : string;
  tokenDecimals : Z;
  totalSupply : string;
  gasLimit : Z;
  gasPriceGwei : float64
}.

Definition set_privateKey (key : string) (g : Flags) : Flags :=
  {| rpcURL := rpcURL g; privateKey := key; tokenName := tokenName g;
     tokenSymbol := tokenSymbol g; tokenDecimals := tokenDecimals g;
     totalSupply := totalSupply g; gasLimit := gasLimit g;
     gasPriceGwei := gasPriceGwei g |}.

(** An argument of a formatted print. *)
Inductive arg : Type :=
| AStr (s : string)
| AInt (n : Z)
| AHex (n : Z).

(** What the process does that can be observed from outside. *)
Inductive event : Type :=
| EvPrint (format : string) (args : list arg)
| EvReadString
| EvDial (url : string)
| EvClose
| EvPendingNonceAt (a : Address)
| EvChainID
| EvSuggestGasPrice
| EvDeploy (auth : TransactOpts) (name symbol : string) (decimals supply : Z)
| EvTransactionReceipt (tx : Hash)
| EvName
| EvSymbol
| EvDecimals.

Definition is_network (e : event) : bool :=
  match e with
  | EvPrint _ _ | EvReadString => false
  | _ => true
  end.

(** The read-only calls on the deployed contract. *)
Definition is_verification (e : event) : bool :=
  match e with
  | EvName | EvSymbol | EvDecimals => true
  | _ => false
  end.

(** How a computation ends: it returns, the process exits through
    [log.Fatal], or it is still waiting when the fuel runs out. *)
Inductive outcome (A : Type) : Type :=
| Returns (a : A)
| Fatal (msg : string)
| Waiting.
Arguments Returns {A} a.
Arguments Fatal {A} msg.
Arguments Waiting {A}.

(** A computation reads and writes the flags, emits events in order,
    and ends in an outcome. *)
Definition M (A : Type) : Type := Flags -> list event * Flags * outcome A.

Definition ret {A} (a : A) : M A := fun g => ([], g, Returns a).

Definition bind {A B} (m : M A) (k : A -> M B) : M B :=
  fun g =>
    match m g with
    | (t1, g1, Returns a) =>
        let '(t2, g2, o) := k a g1 in ((t1 ++ t2)%list, g2, o)
    | (t1, g1, Fatal msg) => (t1, g1, Fatal msg)
    | (t1, g1, Waiting) => (t1, g1, Waiting)
    end.

Notation "x <- m ;; k" := (bind m (fun x => k))
  (at level 61, m at next level, right associativity).
Notation "m ;; k" := (bind m (fun _ => k))
  (at level 61, right associativity).

Definition emit (e : event) : M unit := fun g => ([e], g, Returns tt).
Definition flag {A} (f : Flags -> A) : M A := fun g => ([], g, Returns (f g)).
Definition store_privateKey (key : string) : M unit :=
  fun g => ([], set_privateKey key g, Returns tt).
Definition log_Fatal {A} (msg : string) : M A := fun g => ([], g, Fatal msg).
Definition still_waiting {A} : M A := fun g => ([], g, Waiting).

(** An outside call: the event, then the answer. *)
Definition call {A} (e : event) (answer : A) : M A := emit e ;; ret answer.

Definition fmt_Printf (format : string) (args : list arg) : M unit :=
  emit (EvPrint format args).

(** [if err != nil { return nil, fmt.Errorf(msg, err) }] *)
Definition bind_or_return {A B} (m : M (result A)) (msg : string)
    (k : A -> M (result B)) : M (result B) :=
  r <- m ;;
  match r with
  | Err err => ret (Err (msg ++ err))
  | Ok a => k a
  end.

(** [if err != nil { log.Fatalf(msg, err) }] *)
Definition bind_or_fatal {A B} (m : M (result A)) (msg : string)
    (k : A -> M B) : M B :=
  r <- m ;;
  match r with
  | Err err => log_Fatal (msg ++ err)
  | Ok a => k a
  end.

Notation "x <- m 'or_return' msg ;; k" := (bind_or_return m msg (fun x => k))
  (at level 61, m at next level, msg at next level, right associativity).
Notation "x <- m 'or_fatal' msg ;; k" := (bind_or_fatal m msg (fun x => k))
  (at level 61, m at next level, msg at next level, right associativity).

Definition LF : string := String (ascii_of_nat 10) EmptyString.

(** Go's [a || b] and [a && b] when the operands have effects: the
    right operand runs only if the left one does not decide. *)
Definition or_else (a b : M bool) : M bool :=
  x <- a ;; if x then ret true else b.
Definition and_then (a b : M bool) : M bool :=
  x <- a ;; if x then b else ret false.

Infix "<||>" := or_else (at level 50, left associativity).
Infix "<&&>" := and_then (at level 40, left associativity).

Definition is_empty (f : Flags -> string) : M bool :=
  s <- flag f ;; ret (s =? "")%string.

Definition with_Nonce (n : Z) (a : TransactOpts) : TransactOpts :=
  {| From := From a; Nonce := Some n; SignerKey := SignerKey a;
     SignerChainID := SignerChainID a; Value := Value a;
     GasPrice := GasPrice a; GasLimit := GasLimit a |}.

Definition with_Value (v : Z) (a : TransactOpts) : TransactOpts :=
  {| From := From a; Nonce := Nonce a; SignerKey := SignerKey a;
     SignerChainID := SignerChainID a; Value := Some v;
     GasPrice := GasPrice a; GasLimit := GasLimit a |}.

Definition with_GasPrice (p : Z) (a : TransactOpts) : TransactOpts :=
  {| From := From a; Nonce := Nonce a; SignerKey := SignerKey a;
     SignerChainID := SignerChainID a; Value := Value a;
     GasPrice := Some p; GasLimit := GasLimit a |}.

Definition with_GasLimit (l : Z) (a : TransactOpts) : TransactOpts :=
  {| From := From a; Nonce := Nonce a; SignerKey := SignerKey a;
     SignerChainID := SignerChainID a; Value := Value a;
     GasPrice := GasPrice a; GasLimit := l |}.

Section Program.

Variable env : Env.

(** ** [go-ethereum/crypto] *)

(** [crypto.ToECDSA]: exactly 32 bytes, a scalar in [1, N-1]. *)
Definition ToECDSA (d : list Z) : result ecdsa_PrivateKey :=
  if negb (8 * Z.of_nat (List.length d) =? 256) then
    Err "invalid length, need 256 bits"
  else
    let scalar := big_SetBytes d in
    if scalar >=? secp256k1N then Err "invalid private key, >=N"
    else if scalar <=? 0 then Err "invalid private key, zero or negative"
    else
      match ScalarBaseMult env d with
      | None => Err "invalid private key"
      | Some pub => Ok {| PublicKey := pub; D := scalar |}
      end.

Definition HexToECDSA (hexkey : string) : result ecdsa_PrivateKey :=
  match hex_DecodeString hexkey with
  | inr (InvalidByteError c) =>
      Err ("invalid hex character '" ++ String c "' in private key")
  | inr ErrLength => Err "invalid hex data for private key"
  | inl b => ToECDSA b
  end.

(** ** [accounts/abi/bind] *)

Definition NewKeyedTransactorWithChainID
    (key : ecdsa_PrivateKey) (chainID : option Z) : result TransactOpts :=
  let keyAddr := PubkeyToAddress env (PublicKey key) in
  match chainID with
  | None => Err "no chain id specified"
  | Some id =>
      Ok {| From := keyAddr; Nonce := None; SignerKey := D key;
            SignerChainID := id; Value := None; GasPrice := None;
            GasLimit := 0 |}
  end.

(** [bind.WaitMined]: query the receipt; without one, wait for the
    context to be done or for the next tick, whichever comes first.
    [fuel] bounds the number of queries the model follows. *)
Fixpoint WaitMined_from (ctx : Context) (b : Client) (tx : Hash)
    (fuel tick : nat) : M (result Receipt) :=
  match fuel with
  | O => still_waiting
  | S fuel' =>
      r <- call (EvTransactionReceipt tx) (TransactionReceipt b tick tx) ;;
      match r with
      | Ok receipt => ret (Ok receipt)
      | Err _ =>
          if ctx_Done ctx (S tick) then ret (Err "context deadline exceeded")
          else WaitMined_from ctx b tx fuel' (S tick)
      end
  end.

Definition WaitMined (ctx : Context) (b : Client) (tx : Hash)
    (fuel : nat) : M (result Receipt) :=
  WaitMined_from ctx b tx fuel 0.

(** ** [cmd/erc20/main.go] *)

Definition createTransactor (privateKeyHex : string) (client : Client)
  : M (result TransactOpts) :=
  key <- ret (HexToECDSA (strings_TrimPrefix privateKeyHex "0x"))
    or_return "invalid private key: " ;;
  let publicKey := Public key in
  match as_ecdsa_PublicKey publicKey with
  | None => ret (Err "error casting public key to ECDSA")
  | Some publicKeyECDSA =>
      let fromAddress := PubkeyToAddress env publicKeyECDSA in
      nonce <- call (EvPendingNonceAt fromAddress)
                    (PendingNonceAt client fromAddress)
        or_return "failed to get nonce: " ;;
      chainID <- call EvChainID (ChainID client)
        or_return "failed to get chain ID: " ;;
      auth <- ret (NewKeyedTransactorWithChainID key (Some chainID))
        or_return "failed to create transactor: " ;;
      let auth := with_Nonce (big_NewInt (int64_of_uint64 nonce)) auth in
      let auth := with_Value (big_NewInt 0) auth in
      let set_limit (auth : TransactOpts) : M (result TransactOpts) :=
        limit <- flag gasLimit ;;
        ret (Ok (with_GasLimit limit auth)) in
      gwei <- flag gasPriceGwei ;;
      if f64_ltb (f64_of_Z 0) gwei then
        let gasPriceWei :=
          big_NewInt
            (int64_of_float64 (float_indefinite env)
               (f64_mul gwei (f64_of_Z 1000000000)))
          * big_NewInt 1 in
        set_limit (with_GasPrice gasPriceWei auth)
      else
        gasPrice <- call EvSuggestGasPrice (SuggestGasPrice client)
          or_return "failed to suggest gas price: " ;;
        set_limit (with_GasPrice gasPrice auth)
  end.

Definition promptForPrivateKey : M bool :=
  fmt_Printf "Enter your private key (without 0x prefix): " [] ;;
  key <- call EvReadString (stdin_ReadString env)
    or_fatal "Failed to read private key: " ;;
  let key := strings_TrimSpace env key in
  if (key =? "")%string then ret false
  else store_privateKey key ;; ret true.

(** Lines 75-93 of [main]: the report on a mined receipt. *)
Definition main_report (receipt : Receipt) (instance : ERC20Token) : M unit :=
  if Status receipt =? 1 then
    fmt_Printf (LF ++ "Deployment successful!" ++ LF) [] ;;
    fmt_Printf ("Gas used: %d" ++ LF) [AInt (GasUsed receipt)] ;;
    name <- call EvName (Name instance) ;;
    match name with
    | Ok name => fmt_Printf ("Token name: %s" ++ LF) [AStr name]
    | Err _ => ret tt
    end ;;
    symbol <- call EvSymbol (Symbol instance) ;;
    match symbol with
    | Ok symbol => fmt_Printf ("Token symbol: %s" ++ LF) [AStr symbol]
    | Err _ => ret tt
    end ;;
    decimals <- call EvDecimals (Decimals instance) ;;
    match decimals with
    | Ok decimals => fmt_Printf ("Token decimals: %d" ++ LF) [AInt decimals]
    | Err _ => ret tt
    end
  else
    fmt_Printf
      (LF ++ "Deployment failed! Check the transaction on a block explorer."
          ++ LF) [].

Definition flags_missing : M bool :=
  is_empty rpcURL
  <||> (is_empty privateKey <&&> (p <- promptForPrivateKey ;; ret (negb p)))
  <||> is_empty tokenName
  <||> is_empty tokenSymbol
  <||> is_empty totalSupply.

(** [main], after [flag.Parse()].  The deferred [client.Close()] runs
    on the normal return only: [log.Fatal] exits the process. *)
Definition main (fuel : nat) : M unit :=
  missing <- flags_missing ;;
  if missing then
    log_Fatal "All flags are required: -rpc, -key, -name, -symbol, -supply"
  else
    url <- flag rpcURL ;;
    client <- call (EvDial url) (ethclient_Dial env url)
      or_fatal "Failed to connect to the Ethereum network: " ;;
    key <- flag privateKey ;;
    auth <- createTransactor key client
      or_fatal "Failed to create transactor: " ;;
    supplyText <- flag totalSupply ;;
    decimals <- flag tokenDecimals ;;
    supply <- ret (parseSupply supplyText (uint8_of_uint decimals))
      or_fatal "Failed to parse supply: " ;;
    name <- flag tokenName ;;
    symbol <- flag tokenSymbol ;;
    deployed <-
      call (EvDeploy auth name symbol (uint8_of_uint decimals) supply)
           (DeployERC20Token client auth name symbol
              (uint8_of_uint decimals) supply)
      or_fatal "Failed to deploy contract: " ;;
    let '(address, tx, instance) := deployed in
    fmt_Printf ("Token deployment initiated!" ++ LF) [] ;;
    fmt_Printf ("Contract address: %s" ++ LF) [AHex address] ;;
    fmt_Printf ("Transaction hash: %s" ++ LF) [AHex tx] ;;
    fmt_Printf ("Waiting for transaction to be mined..." ++ LF) [] ;;
    receipt <- WaitMined context_Background client tx fuel
      or_fatal "Failed to wait for mining: " ;;
    main_report receipt instance ;;
    emit EvClose.

End Program.

(** ** Vocabulary of the properties *)

Definition success_notice : event :=
  EvPrint (LF ++ "Deployment successful!" ++ LF) [].

Definition failure_notice : event :=
  EvPrint
    (LF ++ "Deployment failed! Check the transaction on a block explorer."
        ++ LF) [].

(** The line printed for a verification call that answered. *)
Definition report_line {A} (r : result A) (format : string) (mk : A -> arg)
  : list event :=
  match r with
  | Ok a => [EvPrint format [mk a]]
  | Err _ => []
  end.

(** A trace with no network activity. *)
Definition quiet (t : list event) : Prop :=
  Forall (fun e => is_network e = false) t.

(** No key on the command line and none from the prompt: the read
    fails or the line is blank. *)
Definition secret_absent (env : Env) (g : Flags) : Prop :=
  privateKey g = "" /\
  forall key, stdin_ReadString env = Ok key -> strings_TrimSpace env key = "".

Definition mandatory_absent (env : Env) (g : Flags) : Prop :=
  rpcURL g = "" \/ secret_absent env g \/ tokenName g = ""
  \/ tokenSymbol g = "" \/ totalSupply g = "".

(** The first [n] receipt queries find no receipt. *)
Definition never_answered (b : Client) (tx : Hash) (n : nat) : Prop :=
  forall k, (k < n)%nat -> exists e, TransactionReceipt b k tx = Err e.

(** How [createTransactor] determines the gas price, in base units. *)
Definition gas_price_rule (env : Env) (client : Client) (g : Flags)
    (price : Z) : Prop :=
  (f64_ltb (f64_of_Z 0) (gasPriceGwei g) = true /\
   price = int64_of_float64 (float_indefinite env)
             (f64_mul (gasPriceGwei g) (f64_of_Z 1000000000)))
  \/
  (f64_ltb (f64_of_Z 0) (gasPriceGwei g) = false /\
   SuggestGasPrice client = Ok price).

Arguments f64_of_Z : simpl never.
Arguments f64_ltb : simpl never.
Arguments f64_mul : simpl never.
Arguments int64_of_float64 : simpl never.

(** ** A sample world

    A reachable endpoint whose account has pending sequence number
    [nonce], that answers the receipt query from the [mined_at]-th one
    on ([None]: never) with the given status, and a contract whose
    read-only calls answer.  The curve and the address hash are
    stand-ins: no property below depends on them.  Trimming covers the
    ASCII white space. *)

Definition is_space (c : ascii) : bool :=
  in_range "009" "013" c || Ascii.eqb c " ".

Fixpoint trim_left (s : string) : string :=
  match s with
  | EmptyString => EmptyString
  | String c s' => if is_space c then trim_left s' else s
  end.

Fixpoint trim_right (s : string) : string :=
  match s with
  | EmptyString => EmptyString
  | String c s' =>
      match trim_right s' with
      | EmptyString => if is_space c then EmptyString else String c EmptyString
      | r => String c r
      end
  end.

Definition ascii_TrimSpace (s : string) : string := trim_right (trim_left s).

Definition sample_token : ERC20Token :=
  {| Name := Ok "TestCoin"; Symbol := Ok "TST"; Decimals := Ok 18 |}.

Definition sample_client (nonce : Z) (mined_at : option nat) (status : Z)
  : Client :=
  {| PendingNonceAt := fun _ => Ok nonce;
     ChainID := Ok 1;
     SuggestGasPrice := Ok 2000000000;
     DeployERC20Token := fun _ _ _ _ _ => Ok (1234, 5678, sample_token);
     TransactionReceipt := fun k _ =>
       match mined_at with
       | Some n =>
           if (n <=? k)%nat then Ok {| Status := status; GasUsed := 21000 |}
           else Err "not found"
       | None => Err "not found"
       end |}.

Definition sample_env_typing (stdin : result string) (c : Client) : Env :=
  {| ScalarBaseMult := fun d => Some {| X := big_SetBytes d; Y := 0 |};
     PubkeyToAddress := fun pk => X pk mod 2 ^ 160;
     strings_TrimSpace := ascii_TrimSpace;
     float_indefinite := int64_min;
     stdin_ReadString := stdin;
     ethclient_Dial := fun _ => Ok c |}.

(** Nothing is typed: standard input is closed. *)
Definition sample_env : Client -> Env := sample_env_typing (Err "EOF").

Definition sample_key : string :=
  "0000000000000000000000000000000000000000000000000000000000000001".

Definition sample_flags (gwei : float64) (gas : Z) : Flags :=
  {| rpcURL := "http://localhost:8545"; privateKey := sample_key;
     tokenName := "TestCoin"; tokenSymbol := "TST"; tokenDecimals := 18;
     totalSupply := "1000"; gasLimit := gas; gasPriceGwei := gwei |}.

(** ** Classes of events and of key strings *)

Definition is_query (e : event) : bool :=
  match e with
  | EvPendingNonceAt _ | EvChainID | EvSuggestGasPrice => true
  | _ => false
  end.

Definition is_receipt_query (e : event) : bool :=
  match e with
  | EvTransactionReceipt _ => true
  | _ => false
  end.

Definition is_print (e : event) : bool :=
  match e with
  | EvPrint _ _ => true
  | _ => false
  end.

Definition is_deploy (e : event) : bool :=
  match e with
  | EvDeploy _ _ _ _ _ => true
  | _ => false
  end.

Definition is_dial (e : event) : bool :=
  match e with
  | EvDial _ => true
  | _ => false
  end.

Definition is_hex_digit (c : ascii) : bool :=
  match fromHexChar c with
  | Some _ => true
  | None => false
  end.

Fixpoint all_hex (s : string) : bool :=
  match s with
  | EmptyString => true
  | String c s' => is_hex_digit c && all_hex s'
  end.

(** The three queries of [createTransactor], in the order it makes
    them, for the account [a]. *)
Definition transactor_queries (a : Address) : list event :=
  [EvPendingNonceAt a; EvChainID; EvSuggestGasPrice].

(** The four lines [main] prints after the deployment is submitted. *)
Definition announcement (address : Address) (tx : Hash) : list event :=
  [EvPrint ("Token deployment initiated!" ++ LF) [];
   EvPrint ("Contract address: %s" ++ LF) [AHex address];
   EvPrint ("Transaction hash: %s" ++ LF) [AHex tx];
   EvPrint ("Waiting for transaction to be mined..." ++ LF) []].

(** The prompt: one line printed, one line read. *)
Definition prompt_trace : list event :=
  [EvPrint "Enter your private key (without 0x prefix): " []; EvReadString].

Definition is_stdin (e : event) : bool :=
  match e with
  | EvReadString => true
  | _ => false
  end.

Definition is_close (e : event) : bool :=
  match e with
  | EvClose => true
  | _ => false
  end.

(** ** The ways a run of [main] ends

    One constructor for each exit of [main], with the calls that lead
    to it and the trace they leave: the flag check, the connection,
    the transactor, the supply, the deployment, the wait and the
    report.  [main_run_intro] shows every run is one of these. *)

Inductive main_run (env : Env) (fuel : nat) (g : Flags)
  : list event -> Flags -> outcome unit -> Prop :=
| run_flags_missing t0 g0 :
    flags_missing env g = (t0, g0, Returns true) ->
    main_run env fuel g t0 g0
      (Fatal "All flags are required: -rpc, -key, -name, -symbol, -supply")
| run_prompt_failed t0 g0 msg :
    flags_missing env g = (t0, g0, Fatal msg) ->
    main_run env fuel g t0 g0 (Fatal msg)
| run_dial_failed t0 g0 e :
    flags_missing env g = (t0, g0, Returns false) ->
    ethclient_Dial env (rpcURL g0) = Err e ->
    main_run env fuel g (t0 ++ [EvDial (rpcURL g0)]) g0
      (Fatal ("Failed to connect to the Ethereum network: " ++ e))
| run_transactor_failed t0 g0 client t1 e :
    flags_missing env g = (t0, g0, Returns false) ->
    ethclient_Dial env (rpcURL g0) = Ok client ->
    createTransactor env (privateKey g0) client g0
      = (t1, g0, Returns (Err e)) ->
    main_run env fuel g (t0 ++ EvDial (rpcURL g0) :: t1) g0
      (Fatal ("Failed to create transactor: " ++ e))
| run_supply_invalid t0 g0 client t1 auth e :
    flags_missing env g = (t0, g0, Returns false) ->
    ethclient_Dial env (rpcURL g0) = Ok client ->
    createTransactor env (privateKey g0) client g0
      = (t1, g0, Returns (Ok auth)) ->
    parseSupply (totalSupply g0) (uint8_of_uint (tokenDecimals g0)) = Err e ->
    main_run env fuel g (t0 ++ EvDial (rpcURL g0) :: t1) g0
      (Fatal ("Failed to parse supply: " ++ e))
| run_deploy_failed t0 g0 client t1 auth supply e :
    flags_missing env g = (t0, g0, Returns false) ->
    ethclient_Dial env (rpcURL g0) = Ok client ->
    createTransactor env (privateKey g0) client g0
      = (t1, g0, Returns (Ok auth)) ->
    parseSupply (totalSupply g0) (uint8_of_uint (tokenDecimals g0))
      = Ok supply ->
    DeployERC20Token client auth (tokenName g0) (tokenSymbol g0)
      (uint8_of_uint (tokenDecimals g0)) supply = Err e ->
    main_run env fuel g
      (t0 ++ EvDial (rpcURL g0) :: t1
          ++ [EvDeploy auth (tokenName g0) (tokenSymbol g0)
                (uint8_of_uint (tokenDecimals g0)) supply]) g0
      (Fatal ("Failed to deploy contract: " ++ e))
| run_waiting t0 g0 client t1 auth supply address tx instance :
    flags_missing env g = (t0, g0, Returns false) ->
    ethclient_Dial env (rpcURL g0) = Ok client ->
    createTransactor env (privateKey g0) client g0
      = (t1, g0, Returns (Ok auth)) ->
    parseSupply (totalSupply g0) (uint8_of_uint (tokenDecimals g0))
      = Ok supply ->
    DeployERC20Token client auth (tokenName g0) (tokenSymbol g0)
      (uint8_of_uint (tokenDecimals g0)) supply
      = Ok (address, tx, instance) ->
    WaitMined context_Background client tx fuel g0
      = (repeat (EvTransactionReceipt tx) fuel, g0, Waiting) ->
    main_run env fuel g
      (t0 ++ EvDial (rpcURL g0) :: t1
          ++ EvDeploy auth (tokenName g0) (tokenSymbol g0)
               (uint8_of_uint (tokenDecimals g0)) supply
          :: announcement address tx
          ++ repeat (EvTransactionReceipt tx) fuel) g0
      Waiting
| run_mined t0 g0 client t1 auth supply address tx instance n receipt t3 :
    flags_missing env g = (t0, g0, Returns false) ->
    ethclient_Dial env (rpcURL g0) = Ok client ->
    createTransactor env (privateKey g0) client g0
      = (t1, g0, Returns (Ok auth)) ->
    parseSupply (totalSupply g0) (uint8_of_uint (tokenDecimals g0))
      = Ok supply ->
    DeployERC20Token client auth (tokenName g0) (tokenSymbol g0)
      (uint8_of_uint (tokenDecimals g0)) supply
      = Ok (address, tx, instance) ->
    (n <= fuel)%nat ->
    WaitMined context_Background client tx fuel g0
      = (repeat (EvTransactionReceipt tx) n, g0, Returns (Ok receipt)) ->
    main_report receipt instance g0 = (t3, g0, Returns tt) ->
    main_run env fuel g
      (t0 ++ EvDial (rpcURL g0) :: t1
          ++ EvDeploy auth (tokenName g0) (tokenSymbol g0)
               (uint8_of_uint (tokenDecimals g0)) supply
          :: announcement address tx
          ++ repeat (EvTransactionReceipt tx) n ++ t3 ++ [EvClose]) g0
      (Returns tt).

(** The [float64] that holds the positive integer [q] exactly, when
    [q] has at most 53 binary digits: the mantissa is [q] shifted
    left until it has 53. *)
Definition f64_exact (q : positive) : float64 :=
  let d := Z.pos (Pos.size q) in
  S754_finite false (Pos.shiftl q (Z.to_N (53 - d))) (d - 53).

(** * Properties *)

(** ** Supply scaling *)

Lemma digit_value_digit ch :
  is_digit ch = true ->
  digit_value 10 ch = byte_val ch - 48 /\ 0 <= byte_val ch - 48 < 10.
Proof.
  unfold is_digit, digit_value. intros H. rewrite H.
  unfold in_range in H. apply andb_prop in H as [H1 H2].
  change (byte_val "0") with 48 in *. change (byte_val "9") with 57 in H2.
  lia.
Qed.

Lemma digit_value_non_digit ch :
  is_digit ch = false -> digit_value 10 ch >= 10.
Proof.
  unfold is_digit, digit_value. intros H. rewrite H.
  destruct (in_range "a" "z" ch) eqn:Ha.
  - unfold in_range in Ha. apply andb_prop in Ha as [Ha _].
    change (byte_val "a") with 97 in *. lia.
  - destruct (in_range "A" "Z" ch) eqn:Hb.
    + unfold in_range in Hb. apply andb_prop in Hb as [Hb _].
      change (byte_val "A") with 65 in *.
      change (10 <=? maxBaseSmall) with true. cbv iota. lia.
    + unfold MaxBase. lia.
Qed.

(** On a string of digits the loop reads everything and computes the
    positional value on top of the accumulator. *)
Lemma scan_digits_all s : forall z count,
  all_digits s = true ->
  scan_digits 10 s z count =
    (z * 10 ^ Z.of_nat (String.length s) + decimal_value s,
     (count + String.length s)%nat, EmptyString).
Proof.
  induction s as [|ch s IH]; intros z count H.
  - simpl. f_equal. f_equal; [lia | auto with arith].
  - simpl in H. apply andb_prop in H as [Hd Hs].
    destruct (digit_value_digit ch Hd) as [E R].
    cbn [scan_digits]. rewrite E.
    destruct (byte_val ch - 48 >=? 10) eqn:G; [lia|].
    rewrite (IH _ _ Hs). cbn [String.length decimal_value].
    rewrite Nat2Z.inj_succ, Z.pow_succ_r by lia.
    f_equal. f_equal; [ring | lia].
Qed.

(** The loop never consumes more than digits: what it leaves unread is
    empty exactly when the whole input was digits. *)
Lemma scan_digits_rest s : forall z count,
  all_digits s = false ->
  exists z' count' ch r,
    scan_digits 10 s z count = (z', count', String ch r).
Proof.
  induction s as [|ch s IH]; intros z count H.
  - discriminate.
  - cbn [scan_digits]. simpl in H.
    destruct (is_digit ch) eqn:Hd.
    + destruct (digit_value_digit ch Hd) as [E R]. rewrite E.
      destruct (byte_val ch - 48 >=? 10) eqn:G; [lia|].
      apply IH. exact H.
    + pose proof (digit_value_non_digit ch Hd) as G.
      destruct (digit_value 10 ch >=? 10) eqn:G'; [|lia].
      eauto.
Qed.

Lemma nat_scan_decimal s :
  is_decimal s = true ->
  nat_scan 10 s = Ok (decimal_value s, EmptyString).
Proof.
  destruct s as [|ch s]; [discriminate|].
  unfold is_decimal, nat_scan. intros H.
  rewrite (scan_digits_all _ 0 0%nat H). reflexivity.
Qed.

Lemma nat_scan_not_decimal s :
  is_decimal s = false ->
  match nat_scan 10 s with
  | Err _ => True
  | Ok (_, r) => r <> EmptyString
  end.
Proof.
  destruct s as [|ch s]; [intros _; exact I|].
  unfold is_decimal, nat_scan. intros H.
  destruct (scan_digits_rest _ 0 0%nat H) as (z' & c' & ch' & r & E).
  rewrite E. destruct c'; [exact I | discriminate].
Qed.

Lemma decimal_value_nonneg s : all_digits s = true -> 0 <= decimal_value s.
Proof.
  induction s as [|ch s IH]; intros H; simpl; [lia|].
  simpl in H. apply andb_prop in H as [Hd Hs].
  destruct (digit_value_digit ch Hd) as [_ R].
  specialize (IH Hs).
  assert (0 <= 10 ^ Z.of_nat (String.length s)) by (apply Z.pow_nonneg; lia).
  nia.
Qed.

Lemma digit_not_sign ch :
  is_digit ch = true -> Ascii.eqb ch "-" = false /\ Ascii.eqb ch "+" = false.
Proof.
  intros H. split; destruct (Ascii.eqb_spec ch "-"%char), (Ascii.eqb_spec ch "+"%char);
    subst; try reflexivity; try discriminate.
Qed.

Lemma big_SetString_decimal s :
  is_decimal s = true -> big_SetString s 10 = Some (decimal_value s).
Proof.
  intros H. unfold big_SetString, Int_scan.
  destruct s as [|ch s]; [discriminate|].
  assert (Hd : is_digit ch = true).
  { simpl in H. apply andb_prop in H. tauto. }
  destruct (digit_not_sign ch Hd) as [E1 E2].
  unfold scanSign. rewrite E1, E2.
  rewrite (nat_scan_decimal _ H).
  rewrite andb_false_r. reflexivity.
Qed.

Lemma big_SetString_rejects s :
  is_signed_decimal s = false -> big_SetString s 10 = None.
Proof.
  intros H. unfold big_SetString, Int_scan.
  destruct s as [|ch s]; [reflexivity|].
  unfold is_signed_decimal in H. unfold scanSign.
  destruct (Ascii.eqb ch "-") eqn:E1; [|destruct (Ascii.eqb ch "+") eqn:E2];
    cbn [orb] in H;
    pose proof (nat_scan_not_decimal _ H) as N;
    match type of N with
    | match ?n with _ => _ end =>
        destruct n as [[z [|c r]]|e]; try reflexivity; congruence
    end.
Qed.

Lemma big_Exp_10 d : 0 <= d -> big_Exp (big_NewInt 10) (big_NewInt d) = 10 ^ d.
Proof.
  intros H. unfold big_Exp, big_NewInt.
  destruct (d <=? 0) eqn:E; [|reflexivity].
  assert (d = 0) by lia. subst. reflexivity.
Qed.

(** C1. For every non-empty string of decimal digits [a] and every
    decimals value [d] in 0..255, [parseSupply a d] returns exactly the
    number [a] denotes times [10^d], as an unbounded integer; in
    particular 10^18 whole units at 18 decimals give 10^36, and 0
    gives 0. *)
Theorem parseSupply_scales_exactly :
  (forall a d,
      is_decimal a = true -> 0 <= d <= 255 ->
      parseSupply a d = Ok (decimal_value a * 10 ^ d))
  /\ parseSupply "1000000000000000000" 18 = Ok (10 ^ 36)
  /\ parseSupply "0" 18 = Ok 0.
Proof.
  split; [|split; reflexivity].
  intros a d Ha Hd. unfold parseSupply.
  rewrite (big_SetString_decimal a Ha).
  unfold int64_of_uint8. rewrite big_Exp_10 by lia. reflexivity.
Qed.

Lemma parseSupply_scales_exactly_witness :
  is_decimal "1000" = true /\ 0 <= 18 <= 255 /\
  parseSupply "1000" 18 = Ok (decimal_value "1000" * 10 ^ 18).
Proof.
  split; [reflexivity|]. split; [lia|].
  apply (proj1 parseSupply_scales_exactly "1000" 18); [reflexivity | lia].
Defined.

Lemma parseSupply_rejects s d :
  is_signed_decimal s = false ->
  parseSupply s d = Err ("invalid supply value: " ++ s).
Proof.
  intros H. unfold parseSupply. rewrite (big_SetString_rejects s H).
  reflexivity.
Qed.

(** The parser takes one leading sign: [SetString] is an integer
    parser, not a digit-string check. *)
Example parseSupply_plus : parseSupply "+5" 18 = Ok (5 * 10 ^ 18).
Proof. reflexivity. Qed.

Example parseSupply_minus : parseSupply "-5" 18 = Ok (- 5 * 10 ^ 18).
Proof. reflexivity. Qed.

Example parseSupply_inner_sign :
  parseSupply "5-" 18 = Err "invalid supply value: 5-".
Proof. reflexivity. Qed.

(** C2, as stated, fails: ["+5"] contains a character that is not a
    digit, and [parseSupply] returns the scaled value 5 * 10^18. *)
Lemma parseSupply_non_digit_accepted :
  ~ (forall s d,
        0 <= d <= 255 ->
        s = "" \/ all_digits s = false ->
        exists msg, parseSupply s d = Err msg).
Proof.
  intros H. destruct (H "+5" 18) as [msg E]; [lia | right; reflexivity |].
  discriminate E.
Qed.

(** C2, amended. [parseSupply] returns the invalid-supply error for
    every string that is not one or more decimal digits after at most
    one leading [+] or [-]: the empty string, a lone sign, and any
    string with a non-digit past that first position; in particular
    ["abc"] and the empty string fail. *)
Theorem parseSupply_rejects_malformed :
  (forall s d,
      is_signed_decimal s = false ->
      exists msg, parseSupply s d = Err msg)
  /\ parseSupply "abc" 18 = Err "invalid supply value: abc"
  /\ parseSupply "" 18 = Err "invalid supply value: ".
Proof.
  split; [|split; reflexivity].
  intros s d H. eexists. apply parseSupply_rejects. exact H.
Qed.

Lemma parseSupply_rejects_malformed_witness :
  is_signed_decimal "12a4" = false /\
  exists msg, parseSupply "12a4" 18 = Err msg.
Proof.
  split; [reflexivity|].
  apply (proj1 parseSupply_rejects_malformed "12a4" 18). reflexivity.
Defined.

(** ** The transactor *)

Lemma createTransactor_Ok_inv env k client g t g' auth :
  createTransactor env k client g = (t, g', Returns (Ok auth)) ->
  exists key nonce chainID price,
    HexToECDSA env (strings_TrimPrefix k "0x") = Ok key /\
    PendingNonceAt client (PubkeyToAddress env (PublicKey key)) = Ok nonce /\
    ChainID client = Ok chainID /\
    gas_price_rule env client g price /\
    g' = g /\
    auth = {| From := PubkeyToAddress env (PublicKey key);
              Nonce := Some (int64_of_uint64 nonce);
              SignerKey := D key;
              SignerChainID := chainID;
              Value := Some 0;
              GasPrice := Some price;
              GasLimit := gasLimit g |}.
Proof.
  unfold createTransactor, bind_or_return, call, bind, ret, emit, flag,
    gas_price_rule.
  destruct (HexToECDSA env (strings_TrimPrefix k "0x")) as [key|e] eqn:K;
    [|discriminate].
  cbn.
  destruct (PendingNonceAt client _) as [nonce|e] eqn:N; [|discriminate].
  destruct (ChainID client) as [chainID|e] eqn:C; [|discriminate].
  cbn.
  destruct (f64_ltb (f64_of_Z 0) (gasPriceGwei g)) eqn:P.
  - cbn. intros H. inversion H; subst.
    exists key, nonce, chainID. eexists.
    split; [reflexivity|]. split; [exact N|]. split; [reflexivity|].
    split; [left; split; reflexivity|].
    split; [reflexivity|].
    unfold with_GasLimit, with_GasPrice, big_NewInt; cbn.
    rewrite Z.mul_1_r. reflexivity.
  - cbn. destruct (SuggestGasPrice client) as [price|e] eqn:S; [|discriminate].
    cbn. intros H. inversion H; subst.
    exists key, nonce, chainID, price.
    split; [reflexivity|]. split; [exact N|]. split; [reflexivity|].
    split; [right; split; reflexivity|].
    split; reflexivity.
Qed.

(** C5. A caller-supplied gas price of 5 gwei becomes exactly
    5_000_000_000 wei in the authorization, whatever the endpoint
    answers and on every platform. *)
Theorem createTransactor_gwei_to_wei env k client g t g' auth :
  gasPriceGwei g = f64_of_Z 5 ->
  createTransactor env k client g = (t, g', Returns (Ok auth)) ->
  GasPrice auth = Some 5000000000.
Proof.
  intros G H.
  destruct (createTransactor_Ok_inv _ _ _ _ _ _ _ H)
    as (key & nonce & chainID & price & _ & _ & _ & R & _ & ->).
  cbn. f_equal. unfold gas_price_rule in R. rewrite G in R.
  destruct R as [[_ ->]|[R _]]; [reflexivity | discriminate R].
Qed.

Lemma createTransactor_gwei_to_wei_witness :
  let c := sample_client 7 None 1 in
  let g := sample_flags (f64_of_Z 5) 3000000 in
  gasPriceGwei g = f64_of_Z 5 /\
  exists t g' auth,
    createTransactor (sample_env c) sample_key c g = (t, g', Returns (Ok auth))
    /\ GasPrice auth = Some 5000000000.
Proof.
  intros c g. split; [reflexivity|].
  eexists _, _, _. split; [vm_compute; reflexivity|].
  eapply (createTransactor_gwei_to_wei (sample_env c) sample_key c g);
    [reflexivity | vm_compute; reflexivity].
Defined.

(** The conversion discards what is below one wei: a supplied price
    of 2^-40 gwei is positive and becomes 0 wei. *)
Example createTransactor_tiny_price :
  let c := sample_client 7 None 1 in
  let tiny := S754_finite false 4503599627370496 (-92) in
  f64_ltb (f64_of_Z 0) tiny = true /\
  exists t g' auth,
    createTransactor (sample_env c) sample_key c (sample_flags tiny 3000000)
      = (t, g', Returns (Ok auth))
    /\ GasPrice auth = Some 0.
Proof.
  intros c tiny. split; [reflexivity|].
  eexists _, _, _. split; vm_compute; reflexivity.
Qed.

(** C4, as stated, fails: with [-gas 0] the transactor is created and
    its gas limit is 0. *)
Lemma createTransactor_zero_gas_limit :
  ~ (forall env k client g t g' auth,
        createTransactor env k client g = (t, g', Returns (Ok auth)) ->
        (exists price, GasPrice auth = Some price /\ 0 < price)
        /\ 0 < GasLimit auth).
Proof.
  intros H.
  pose (c := sample_client 7 None 1).
  destruct (H (sample_env c) sample_key c (sample_flags (f64_of_Z 5) 0)
              _ _ _ eq_refl) as [_ L].
  vm_compute in L. discriminate L.
Qed.

(** C4, amended. Whenever [createTransactor] returns without error,
    the authorization's gas limit is the caller-supplied limit
    unchanged, so it is positive exactly when the supplied limit is,
    and its gas price is the supplied price times 10^9 cut to an
    integer when a price above 0 was supplied, and otherwise the
    network's suggestion unchanged.  Neither is compared with 0. *)
Theorem createTransactor_gas_policy env k client g t g' auth :
  createTransactor env k client g = (t, g', Returns (Ok auth)) ->
  GasLimit auth = gasLimit g
  /\ (0 < GasLimit auth <-> 0 < gasLimit g)
  /\ exists price,
       GasPrice auth = Some price /\ gas_price_rule env client g price.
Proof.
  intros H.
  destruct (createTransactor_Ok_inv _ _ _ _ _ _ _ H)
    as (key & nonce & chainID & price & _ & _ & _ & R & _ & ->).
  cbn. split; [reflexivity|]. split; [tauto|].
  exists price. split; [reflexivity | exact R].
Qed.

Lemma createTransactor_gas_policy_witness :
  let c := sample_client 7 None 1 in
  let g := sample_flags (f64_of_Z 0) 3000000 in
  exists t g' auth,
    createTransactor (sample_env c) sample_key c g = (t, g', Returns (Ok auth))
    /\ GasLimit auth = 3000000
    /\ (0 < GasLimit auth <-> 0 < 3000000)
    /\ exists price,
         GasPrice auth = Some price
         /\ gas_price_rule (sample_env c) c g price.
Proof.
  intros c g.
  eexists _, _, _. split; [vm_compute; reflexivity|].
  eapply (createTransactor_gas_policy (sample_env c) sample_key c g).
  vm_compute; reflexivity.
Defined.

(** What a successful [createTransactor] puts in the authorization:
    the address of the key, no value, and the sequence number as
    fetched when that is below 2^63. *)
Lemma createTransactor_fields env k client g t g' auth :
  createTransactor env k client g = (t, g', Returns (Ok auth)) ->
  exists key nonce,
    HexToECDSA env (strings_TrimPrefix k "0x") = Ok key
    /\ From auth = PubkeyToAddress env (PublicKey key)
    /\ PendingNonceAt client (From auth) = Ok nonce
    /\ Nonce auth = Some (int64_of_uint64 nonce)
    /\ (nonce < 2 ^ 63 -> Nonce auth = Some nonce)
    /\ Value auth = Some 0
    /\ GasLimit auth = gasLimit g.
Proof.
  intros H.
  destruct (createTransactor_Ok_inv _ _ _ _ _ _ _ H)
    as (key & nonce & chainID & price & K & N & _ & _ & _ & ->).
  exists key, nonce. cbn. repeat split; try assumption.
  intros L. unfold int64_of_uint64.
  destruct (nonce <? 2 ^ 63) eqn:E; [reflexivity | lia].
Qed.

(** C8 at a sequence number of 2^63: the endpoint answers 2^63, the
    transactor is created, and the nonce it carries is -2^63, not the
    number fetched. *)
Theorem createTransactor_nonce_not_fetched :
  let c := sample_client (2 ^ 63) None 1 in
  exists t g' auth,
    createTransactor (sample_env c) sample_key c
      (sample_flags (f64_of_Z 0) 3000000) = (t, g', Returns (Ok auth))
    /\ PendingNonceAt c (From auth) = Ok (2 ^ 63)
    /\ Nonce auth = Some (- 2 ^ 63)
    /\ Nonce auth <> Some (2 ^ 63).
Proof.
  intros c. eexists _, _, _.
  split; [vm_compute; reflexivity|].
  split; [reflexivity|]. split; [reflexivity|]. discriminate.
Qed.

(** C10. The fetched sequence number goes through [int64] before it
    is stored: for every fetched value from 2^63 up, the nonce in the
    authorization is that value minus 2^64, a negative number. *)
Theorem createTransactor_nonce_wraps env k client g t g' auth n :
  createTransactor env k client g = (t, g', Returns (Ok auth)) ->
  PendingNonceAt client (From auth) = Ok n ->
  2 ^ 63 <= n <= uint64_max ->
  Nonce auth = Some (n - 2 ^ 64) /\ n - 2 ^ 64 < 0.
Proof.
  intros H N R.
  destruct (createTransactor_Ok_inv _ _ _ _ _ _ _ H)
    as (key & nonce & chainID & price & _ & N' & _ & _ & _ & ->).
  cbn in *. rewrite N' in N. injection N as ->.
  unfold int64_of_uint64, uint64_max in *.
  destruct (n <? 2 ^ 63) eqn:E; [lia|]. split; [reflexivity | lia].
Qed.

Lemma createTransactor_nonce_wraps_witness :
  let n := 2 ^ 64 - 1 in
  let c := sample_client n None 1 in
  2 ^ 63 <= n <= uint64_max /\
  exists t g' auth,
    createTransactor (sample_env c) sample_key c
      (sample_flags (f64_of_Z 0) 3000000) = (t, g', Returns (Ok auth))
    /\ PendingNonceAt c (From auth) = Ok n
    /\ Nonce auth = Some (n - 2 ^ 64) /\ n - 2 ^ 64 < 0.
Proof.
  intros n c. split; [unfold n, uint64_max; lia|].
  eexists _, _, _. split; [vm_compute; reflexivity|].
  split; [reflexivity|].
  eapply (createTransactor_nonce_wraps (sample_env c) sample_key c
            (sample_flags (f64_of_Z 0) 3000000)).
  - vm_compute; reflexivity.
  - reflexivity.
  - unfold n, uint64_max; lia.
Defined.

(** ** The key prefix *)

Lemma strings_TrimPrefix_0x k : strings_TrimPrefix ("0x" ++ k) "0x" = k.
Proof.
  unfold strings_TrimPrefix, strings_HasPrefix. cbn.
  destruct k; reflexivity.
Qed.

Lemma strings_TrimPrefix_none k :
  strings_HasPrefix k "0x" = false -> strings_TrimPrefix k "0x" = k.
Proof. unfold strings_TrimPrefix. intros ->. reflexivity. Qed.

(** C9, as stated, fails: for [k] the sample key already written with
    ["0x"], [createTransactor k] succeeds and
    [createTransactor ("0x" ++ k)] does not, because one prefix only
    is removed. *)
Lemma createTransactor_double_prefix :
  ~ (forall env k client g,
        snd (createTransactor env ("0x" ++ k) client g)
        = snd (createTransactor env k client g)).
Proof.
  intros H.
  pose (c := sample_client 7 None 1).
  specialize (H (sample_env c) ("0x" ++ sample_key) c
                (sample_flags (f64_of_Z 0) 3000000)).
  vm_compute in H. discriminate H.
Qed.

(** C9, amended. For every key string [k] that does not itself begin
    with ["0x"], [createTransactor] applied to ["0x" ++ k] is
    [createTransactor] applied to [k]: same calls, same address, same
    success or failure. *)
Theorem createTransactor_prefix_normalized env k client :
  strings_HasPrefix k "0x" = false ->
  createTransactor env ("0x" ++ k) client = createTransactor env k client.
Proof.
  intros H. unfold createTransactor.
  rewrite strings_TrimPrefix_0x, (strings_TrimPrefix_none k H).
  reflexivity.
Qed.

Lemma createTransactor_prefix_normalized_witness :
  let c := sample_client 7 None 1 in
  strings_HasPrefix sample_key "0x" = false /\
  createTransactor (sample_env c) ("0x" ++ sample_key) c
  = createTransactor (sample_env c) sample_key c.
Proof.
  intros c. split; [reflexivity|].
  apply (createTransactor_prefix_normalized (sample_env c) sample_key c).
  reflexivity.
Defined.

(** ** The confirmation wait *)

Lemma WaitMined_from_step ctx b tx fuel tick g :
  WaitMined_from ctx b tx (S fuel) tick g =
  match TransactionReceipt b tick tx with
  | Ok receipt => ([EvTransactionReceipt tx], g, Returns (Ok receipt))
  | Err _ =>
      if ctx_Done ctx (S tick) then
        ([EvTransactionReceipt tx], g, Returns (Err "context deadline exceeded"))
      else
        let '(t, g', o) := WaitMined_from ctx b tx fuel (S tick) g in
        (EvTransactionReceipt tx :: t, g', o)
  end.
Proof.
  cbn [WaitMined_from]. unfold bind, call, emit, ret. cbn.
  destruct (TransactionReceipt b tick tx); [reflexivity|].
  destruct (ctx_Done ctx (S tick)); [reflexivity|].
  destruct (WaitMined_from ctx b tx fuel (S tick) g) as [[t g'] [r|m|]];
    reflexivity.
Qed.

Lemma WaitMined_from_waiting b tx : forall fuel tick g,
  (forall k, (tick <= k < tick + fuel)%nat ->
             exists e, TransactionReceipt b k tx = Err e) ->
  WaitMined_from context_Background b tx fuel tick g =
  (repeat (EvTransactionReceipt tx) fuel, g, Waiting).
Proof.
  induction fuel as [|fuel IH]; intros tick g H; [reflexivity|].
  rewrite WaitMined_from_step.
  destruct (H tick) as [e ->]; [lia|].
  cbn [ctx_Done context_Background deadline].
  rewrite IH; [reflexivity|].
  intros k Hk. apply H. lia.
Qed.

Lemma WaitMined_from_mined b tx receipt : forall n fuel tick g,
  (forall k, (tick <= k < tick + n)%nat ->
             exists e, TransactionReceipt b k tx = Err e) ->
  TransactionReceipt b (tick + n) tx = Ok receipt ->
  (n < fuel)%nat ->
  WaitMined_from context_Background b tx fuel tick g =
  (repeat (EvTransactionReceipt tx) (S n), g, Returns (Ok receipt)).
Proof.
  induction n as [|n IH]; intros fuel tick g H R L;
    (destruct fuel as [|fuel]; [lia|]); rewrite WaitMined_from_step.
  - rewrite Nat.add_0_r in R. rewrite R. reflexivity.
  - destruct (H tick) as [e ->]; [lia|].
    cbn [ctx_Done context_Background deadline].
    rewrite (IH fuel (S tick) g); [reflexivity | | | lia].
    + intros k Hk. apply H. lia.
    + rewrite <- R. f_equal. lia.
Qed.

Lemma WaitMined_from_no_timeout b tx : forall fuel tick g t g' r,
  WaitMined_from context_Background b tx fuel tick g = (t, g', Returns r) ->
  exists receipt, r = Ok receipt.
Proof.
  induction fuel as [|fuel IH]; intros tick g t g' r H; [discriminate H|].
  rewrite WaitMined_from_step in H.
  destruct (TransactionReceipt b tick tx) as [receipt|e].
  - inversion H. eauto.
  - cbn [ctx_Done context_Background deadline] in H.
    destruct (WaitMined_from context_Background b tx fuel (S tick) g)
      as [[t1 g1] o] eqn:E.
    inversion H; subst. eapply IH. exact E.
Qed.

(** With a deadline the same loop does give up: the model of
    [WaitMined] is not what keeps [main] waiting. *)
Example WaitMined_deadline :
  WaitMined {| deadline := Some 3%nat |} (sample_client 7 None 1) 5678 10
    (sample_flags (f64_of_Z 0) 3000000)
  = (repeat (EvTransactionReceipt 5678) 3,
     sample_flags (f64_of_Z 0) 3000000,
     Returns (Err "context deadline exceeded")).
Proof. reflexivity. Qed.

(** C3, amended. The confirmation wait runs under the background
    context, which has no deadline and is never cancelled.  It returns
    only when a receipt query is answered, with that receipt and after
    one query per tick; as long as the queries go unanswered it goes on
    querying; it never gives up with a timeout. *)
Theorem WaitMined_background b tx :
  (forall fuel g t g' r,
      WaitMined context_Background b tx fuel g = (t, g', Returns r) ->
      exists receipt, r = Ok receipt)
  /\ (forall n receipt fuel g,
        never_answered b tx n ->
        TransactionReceipt b n tx = Ok receipt ->
        (n < fuel)%nat ->
        WaitMined context_Background b tx fuel g =
        (repeat (EvTransactionReceipt tx) (S n), g, Returns (Ok receipt)))
  /\ (forall fuel g,
        never_answered b tx fuel ->
        WaitMined context_Background b tx fuel g =
        (repeat (EvTransactionReceipt tx) fuel, g, Waiting)).
Proof.
  unfold WaitMined, never_answered. repeat split.
  - intros fuel g t g' r. apply WaitMined_from_no_timeout.
  - intros n receipt fuel g H R L.
    apply WaitMined_from_mined; [intros k Hk; apply H; lia | exact R | exact L].
  - intros fuel g H.
    apply WaitMined_from_waiting. intros k Hk. apply H. lia.
Qed.

Lemma WaitMined_background_witness :
  let b := sample_client 7 (Some 2%nat) 1 in
  let g := sample_flags (f64_of_Z 0) 3000000 in
  never_answered b 5678 2 /\
  WaitMined context_Background b 5678 5 g =
  (repeat (EvTransactionReceipt 5678) 3, g,
   Returns (Ok {| Status := 1; GasUsed := 21000 |})).
Proof.
  intros b g.
  assert (N : never_answered b 5678 2).
  { intros k Hk. exists "not found".
    destruct k as [|[|k]]; [reflexivity | reflexivity | lia]. }
  split; [exact N|].
  apply (proj1 (proj2 (WaitMined_background b 5678)) 2%nat _ 5%nat g N);
    [reflexivity | lia].
Defined.

Lemma WaitMined_unanswered b tx fuel g :
  never_answered b tx fuel ->
  WaitMined context_Background b tx fuel g =
  (repeat (EvTransactionReceipt tx) fuel, g, Waiting).
Proof.
  intros H. apply WaitMined_from_waiting. intros k Hk. apply H. lia.
Qed.

Lemma sample_never_answered nonce status tx n :
  never_answered (sample_client nonce None status) tx n.
Proof. intros k _. exists "not found". reflexivity. Qed.

Lemma main_sample_waiting fuel :
  let c := sample_client 7 None 1 in
  exists t g',
    main (sample_env c) fuel (sample_flags (f64_of_Z 5) 3000000)
    = (t, g', Waiting).
Proof.
  intros c. cbv -[WaitMined repeat].
  match goal with
  | |- context [WaitMined ?ctx ?b ?tx ?f ?g] =>
      replace (WaitMined ctx b tx f g)
        with (repeat (EvTransactionReceipt tx) f, g, @Waiting (result Receipt))
        by (symmetry; apply (WaitMined_unanswered b tx f g);
            apply (sample_never_answered 7 1))
  end.
  eexists _, _. reflexivity.
Qed.

(** C3, as stated, fails: against an endpoint that never answers the
    receipt query, [main] is still waiting after any number of
    queries; no bound makes it end in a failure. *)
Lemma main_waits_without_bound :
  let c := sample_client 7 None 1 in
  ~ (exists fuel t g' msg,
        main (sample_env c) fuel (sample_flags (f64_of_Z 5) 3000000)
        = (t, g', Fatal msg)).
Proof.
  intros c (fuel & t & g' & msg & H).
  destruct (main_sample_waiting fuel) as (t1 & g1 & E).
  fold c in E. rewrite E in H. discriminate H.
Qed.

(** ** The report *)

Lemma main_report_success receipt instance g :
  Status receipt = 1 ->
  main_report receipt instance g =
  ((success_notice :: EvPrint ("Gas used: %d" ++ LF) [AInt (GasUsed receipt)]
     :: EvName :: report_line (Name instance) ("Token name: %s" ++ LF) AStr)
   ++ (EvSymbol :: report_line (Symbol instance) ("Token symbol: %s" ++ LF) AStr)
   ++ (EvDecimals
         :: report_line (Decimals instance) ("Token decimals: %d" ++ LF) AInt),
   g, Returns tt)%list.
Proof.
  intros S. unfold main_report. rewrite S. cbn [Z.eqb Pos.eqb].
  unfold bind, call, fmt_Printf, emit, ret, report_line, success_notice.
  destruct (Name instance), (Symbol instance), (Decimals instance);
    reflexivity.
Qed.

Lemma main_report_failure receipt instance g :
  Status receipt <> 1 ->
  main_report receipt instance g = ([failure_notice], g, Returns tt).
Proof.
  intros S. unfold main_report.
  destruct (Status receipt =? 1) eqn:E; [lia|]. reflexivity.
Qed.

Lemma report_line_quiet {A} (r : result A) format mk :
  filter is_verification (report_line r format mk) = [].
Proof. destruct r; reflexivity. Qed.

Lemma report_line_no_failure {A} (r : result A) format mk :
  format <> LF ++ "Deployment failed! Check the transaction on a block explorer." ++ LF ->
  ~ In failure_notice (report_line r format mk).
Proof.
  intros F. destruct r; cbn; [|tauto].
  intros [H|[]]. unfold failure_notice in H. congruence.
Qed.

(** C6. On a mined receipt whose status is success (1) the program
    prints the success notice and makes exactly three verification
    calls, name, symbol and decimals in that order, and returns
    normally whether each of them answers or fails.  On any other
    status it prints the failure notice and makes no verification
    call. *)
Theorem main_report_verification receipt instance g :
  (Status receipt = 1 ->
   exists t,
     main_report receipt instance g = (t, g, Returns tt)
     /\ In success_notice t
     /\ ~ In failure_notice t
     /\ filter is_verification t = [EvName; EvSymbol; EvDecimals])
  /\ (Status receipt <> 1 ->
      exists t,
        main_report receipt instance g = (t, g, Returns tt)
        /\ In failure_notice t
        /\ ~ In success_notice t
        /\ filter is_verification t = []).
Proof.
  split; intros S.
  - eexists. split; [apply main_report_success; exact S|].
    split; [left; reflexivity|]. split.
    + rewrite !in_app_iff. cbn [In].
      intros [[H|[H|[H|H]]]|[[H|H]|[H|H]]]; try discriminate H;
        revert H; apply report_line_no_failure; discriminate.
    + rewrite !filter_app. cbn [filter is_verification success_notice].
      rewrite !report_line_quiet. reflexivity.
  - eexists. split; [apply main_report_failure; exact S|].
    split; [left; reflexivity|]. split; [|reflexivity].
    intros [H|[]]. discriminate H.
Qed.

Lemma main_report_verification_witness :
  let failing := {| Name := Err "execution reverted"; Symbol := Ok "TST";
                    Decimals := Err "timeout" |} in
  let g := sample_flags (f64_of_Z 0) 3000000 in
  Status {| Status := 1; GasUsed := 21000 |} = 1 /\
  exists t,
    main_report {| Status := 1; GasUsed := 21000 |} failing g
    = (t, g, Returns tt)
    /\ In success_notice t
    /\ ~ In failure_notice t
    /\ filter is_verification t = [EvName; EvSymbol; EvDecimals].
Proof.
  intros failing g. split; [reflexivity|].
  apply (proj1 (main_report_verification
                  {| Status := 1; GasUsed := 21000 |} failing g)).
  reflexivity.
Defined.

(** ** Validation before the network *)

Lemma promptForPrivateKey_cases env g :
  (exists e,
      stdin_ReadString env = Err e /\
      promptForPrivateKey env g =
      ([EvPrint "Enter your private key (without 0x prefix): " []; EvReadString],
       g, Fatal ("Failed to read private key: " ++ e)))
  \/ (exists key,
        stdin_ReadString env = Ok key /\ strings_TrimSpace env key = "" /\
        promptForPrivateKey env g =
        ([EvPrint "Enter your private key (without 0x prefix): " []; EvReadString],
         g, Returns false))
  \/ (exists key,
        stdin_ReadString env = Ok key /\ strings_TrimSpace env key <> "" /\
        promptForPrivateKey env g =
        ([EvPrint "Enter your private key (without 0x prefix): " []; EvReadString],
         set_privateKey (strings_TrimSpace env key) g, Returns true)).
Proof.
  unfold promptForPrivateKey, bind_or_fatal, bind, call, fmt_Printf, emit,
    ret, log_Fatal, store_privateKey.
  destruct (stdin_ReadString env) as [key|e].
  - right. destruct (String.eqb_spec (strings_TrimSpace env key) "") as [E|E].
    + left. exists key. cbn. rewrite E. cbn. auto.
    + right. exists key. cbn.
      destruct (String.eqb_spec (strings_TrimSpace env key) "");
        [contradiction|]. cbn. auto.
  - left. exists e. cbn. auto.
Qed.

Lemma flags_missing_quiet env g :
  exists t g' o, flags_missing env g = (t, g', o) /\ quiet t /\
    (mandatory_absent env g ->
     o = Returns true \/ exists msg, o = Fatal msg).
Proof.
  unfold flags_missing, or_else, and_then, is_empty, bind, flag, ret,
    mandatory_absent, secret_absent.
  destruct g as [rpc key name sym dec sup gas gwei]. cbn -[promptForPrivateKey].
  destruct rpc as [|r0 rpc]; cbn -[promptForPrivateKey].
  { eexists _, _, _. split; [reflexivity|]. split; [constructor|]. auto. }
  destruct key as [|k0 key]; cbn -[promptForPrivateKey].
  - match goal with
    | |- context [promptForPrivateKey env ?g] =>
        destruct (promptForPrivateKey_cases env g)
          as [(e & R & ->)|[(k & R & T & ->)|(k & R & T & ->)]]
    end; cbn.
    + eexists _, _, _. split; [reflexivity|].
      split; [repeat constructor|]. eauto.
    + eexists _, _, _. split; [reflexivity|].
      split; [repeat constructor|]. auto.
    + destruct name as [|n0 name], sym as [|s0 sym], sup as [|u0 sup]; cbn;
        (eexists _, _, _; split; [reflexivity|];
         split; [repeat constructor|]; auto);
        intros [H|[[_ H]|[H|[H|H]]]]; try discriminate H.
      all: exfalso; apply T; exact (H k R).
  - destruct name as [|n0 name], sym as [|s0 sym], sup as [|u0 sup]; cbn;
      (eexists _, _, _; split; [reflexivity|];
       split; [repeat constructor|]; auto);
      intros [H|[[H _]|[H|[H|H]]]]; discriminate H.
Qed.

(** C7. When the endpoint URL, the token name, the token symbol or
    the supply is absent, or when the key flag is absent and the
    prompt yields nothing (the read fails or the line is blank),
    [main] ends in [log.Fatal] and nothing it did before touches the
    network: no connection is opened. *)
Theorem main_validates_before_network env fuel g :
  mandatory_absent env g ->
  exists t g' msg,
    main env fuel g = (t, g', Fatal msg) /\ quiet t.
Proof.
  intros A.
  destruct (flags_missing_quiet env g) as (t & g' & o & E & Q & O).
  unfold main, bind. rewrite E.
  destruct (O A) as [->|[msg ->]].
  - cbn. rewrite app_nil_r. eauto.
  - eauto.
Qed.

Lemma main_validates_before_network_witness :
  let c := sample_client 7 None 1 in
  let env := sample_env_typing (Ok ("  " ++ LF)) c in
  let g := set_privateKey "" (sample_flags (f64_of_Z 0) 3000000) in
  mandatory_absent env g /\
  exists t g' msg, main env 5 g = (t, g', Fatal msg) /\ quiet t.
Proof.
  intros c env g.
  assert (A : mandatory_absent env g).
  { right. left. split; [reflexivity|].
    intros key H. injection H as <-. reflexivity. }
  split; [exact A|].
  exact (main_validates_before_network env 5 g A).
Defined.

(** ** End to end *)

(** The scenario of the specification: a reachable endpoint, a valid
    key, 1000 whole units at 18 decimals, mined with success at the
    third query.  One connection, one deployment carrying
    1000 * 10^18, three verification calls, and the deferred close. *)
Example main_end_to_end :
  let c := sample_client 7 (Some 2%nat) 1 in
  let g := sample_flags (f64_of_Z 0) 3000000 in
  exists t,
    main (sample_env c) 5 g = (t, g, Returns tt)
    /\ nth_error t 0 = Some (EvDial "http://localhost:8545")
    /\ nth_error t 4 =
       Some (EvDeploy
               {| From := 1; Nonce := Some 7; SignerKey := 1;
                  SignerChainID := 1; Value := Some 0;
                  GasPrice := Some 2000000000; GasLimit := 3000000 |}
               "TestCoin" "TST" 18 (1000 * 10 ^ 18))
    /\ filter is_verification t = [EvName; EvSymbol; EvDecimals]
    /\ In success_notice t
    /\ last t EvReadString = EvClose.
Proof.
  intros c g. eexists. split; [vm_compute; reflexivity|].
  repeat split; try reflexivity.
  vm_compute. tauto.
Qed.

(** The same run with a receipt of status 0: the failure notice and no
    verification call. *)
Example main_reverted :
  let c := sample_client 7 (Some 2%nat) 0 in
  let g := sample_flags (f64_of_Z 0) 3000000 in
  exists t,
    main (sample_env c) 5 g = (t, g, Returns tt)
    /\ filter is_verification t = []
    /\ In failure_notice t.
Proof.
  intros c g. eexists. split; [vm_compute; reflexivity|].
  split; [reflexivity|]. vm_compute. tauto.
Qed.

(** The key typed at the prompt, white space around it removed, is
    stored in the flag and is the key the transactor is made from. *)
Example main_prompted_key :
  let c := sample_client 7 (Some 0%nat) 1 in
  let g := sample_flags (f64_of_Z 0) 3000000 in
  exists t,
    main (sample_env_typing (Ok (" " ++ sample_key ++ LF)) c) 5
      (set_privateKey "" g) = (t, g, Returns tt)
    /\ nth_error t 1 = Some EvReadString
    /\ nth_error t 2 = Some (EvDial "http://localhost:8545")
    /\ nth_error t 3 = Some (EvPendingNonceAt 1).
Proof.
  intros c g. eexists. split; [vm_compute; reflexivity|].
  repeat split; reflexivity.
Qed.

(** * Further properties of the program *)

(** ** [parseSupply]: the accepted strings and the sign *)

Lemma big_SetString_signed ch a :
  (ch = "-"%char \/ ch = "+"%char) ->
  is_decimal a = true ->
  big_SetString (String ch a) 10 =
  Some (if Ascii.eqb ch "-" then - decimal_value a else decimal_value a).
Proof.
  intros S H.
  assert (N : 0 <= decimal_value a).
  { apply decimal_value_nonneg. destruct a; [discriminate | exact H]. }
  unfold big_SetString, Int_scan, scanSign.
  destruct S as [-> | ->]; cbn [Ascii.eqb Bool.eqb];
    rewrite (nat_scan_decimal a H).
  - destruct (0 <? decimal_value a) eqn:P; cbn [andb]; [reflexivity|].
    f_equal. lia.
  - rewrite andb_false_r. reflexivity.
Qed.

Lemma big_SetString_accepts s :
  is_signed_decimal s = true -> exists v, big_SetString s 10 = Some v.
Proof.
  destruct s as [|ch s]; [discriminate|]. unfold is_signed_decimal.
  destruct (Ascii.eqb_spec ch "-"%char) as [->|N1].
  - intros H. eexists. apply big_SetString_signed; auto.
  - destruct (Ascii.eqb_spec ch "+"%char) as [->|N2]; cbn [orb]; intros H.
    + eexists. apply big_SetString_signed; auto.
    + eexists. apply big_SetString_decimal. exact H.
Qed.

(** X1. [parseSupply] succeeds exactly on the strings made of one or
    more decimal digits after at most one leading sign, whatever the
    decimals value. *)
Theorem parseSupply_accepts_iff s d :
  (exists v, parseSupply s d = Ok v) <-> is_signed_decimal s = true.
Proof.
  split.
  - intros [v H]. destruct (is_signed_decimal s) eqn:E; [reflexivity|].
    rewrite (parseSupply_rejects s d E) in H. discriminate H.
  - intros H. destruct (big_SetString_accepts s H) as [v E].
    unfold parseSupply. rewrite E. eauto.
Qed.

(** X2. A leading minus sign is taken as part of the number: for a
    digit string [a], ["-" ++ a] scales to minus what [a] scales to,
    and ["+" ++ a] to the same as [a].  A negative supply is not
    rejected here. *)
Theorem parseSupply_signed a d :
  is_decimal a = true -> 0 <= d <= 255 ->
  parseSupply ("-" ++ a) d = Ok (- (decimal_value a * 10 ^ d))
  /\ parseSupply ("+" ++ a) d = Ok (decimal_value a * 10 ^ d).
Proof.
  intros H D. unfold parseSupply. cbn [append].
  rewrite !big_SetString_signed by auto. cbn [Ascii.eqb Bool.eqb].
  unfold int64_of_uint8. rewrite big_Exp_10 by lia.
  split; f_equal. ring.
Qed.

Lemma parseSupply_signed_witness :
  is_decimal "250" = true /\ 0 <= 6 <= 255 /\
  parseSupply ("-" ++ "250") 6 = Ok (- (decimal_value "250" * 10 ^ 6))
  /\ parseSupply ("+" ++ "250") 6 = Ok (decimal_value "250" * 10 ^ 6).
Proof.
  split; [reflexivity|]. split; [lia|].
  apply (parseSupply_signed "250" 6); [reflexivity | lia].
Defined.

(** X3. Leading zeros do not change the scaled supply. *)
Theorem parseSupply_leading_zero a d :
  is_decimal a = true ->
  parseSupply ("0" ++ a) d = parseSupply a d.
Proof.
  intros H. unfold parseSupply. cbn [append].
  rewrite (big_SetString_decimal a H).
  rewrite (big_SetString_decimal (String "0" a)).
  - cbn [decimal_value]. change (byte_val "0" - 48) with 0.
    rewrite Z.mul_0_l, Z.add_0_l. reflexivity.
  - cbn. destruct a; [discriminate | exact H].
Qed.

Lemma parseSupply_leading_zero_witness :
  is_decimal "42" = true /\ parseSupply ("0" ++ "42") 18 = parseSupply "42" 18.
Proof.
  split; [reflexivity|].
  apply (parseSupply_leading_zero "42" 18). reflexivity.
Defined.

(** ** [createTransactor]: keys *)

Lemma hex_DecodeString_shape : forall n s bytes,
  (String.length s <= n)%nat ->
  hex_DecodeString s = inl bytes ->
  String.length s = (2 * List.length bytes)%nat
  /\ all_hex s = true
  /\ Forall (fun b => 0 <= b < 256) bytes.
Proof.
  induction n as [|n IH]; intros s bytes L H.
  - destruct s; [|cbn in L; lia]. cbn in H. injection H as <-.
    repeat split; constructor.
  - destruct s as [|p [|q rest]].
    + cbn in H. injection H as <-. repeat split; constructor.
    + cbn in H. destruct (fromHexChar p); discriminate H.
    + cbn [hex_DecodeString] in H.
      destruct (fromHexChar p) as [a|] eqn:P; [|discriminate H].
      destruct (fromHexChar q) as [b|] eqn:Q; [|discriminate H].
      destruct (hex_DecodeString rest) as [bs|e] eqn:R; [|discriminate H].
      injection H as <-.
      destruct (IH rest bs) as (L1 & L2 & L3); [cbn in L; lia | exact R |].
      split; [cbn [String.length List.length]; lia|].
      split; [cbn [all_hex]; unfold is_hex_digit; rewrite P, Q; exact L2|].
      constructor; [|exact L3].
      assert (A : 0 <= a < 16).
      { unfold fromHexChar, in_range in P.
        repeat match type of P with
               | (if ?c then _ else _) = _ => destruct c eqn:?
               end; try discriminate P; injection P as <-;
        repeat match goal with
               | H : (_ && _)%bool = true |- _ => apply andb_prop in H as [? ?]
               end;
        change (byte_val "0") with 48 in *; change (byte_val "9") with 57 in *;
        change (byte_val "a") with 97 in *; change (byte_val "f") with 102 in *;
        change (byte_val "A") with 65 in *; change (byte_val "F") with 70 in *;
        lia. }
      assert (B : 0 <= b < 16).
      { unfold fromHexChar, in_range in Q.
        repeat match type of Q with
               | (if ?c then _ else _) = _ => destruct c eqn:?
               end; try discriminate Q; injection Q as <-;
        repeat match goal with
               | H : (_ && _)%bool = true |- _ => apply andb_prop in H as [? ?]
               end;
        change (byte_val "0") with 48 in *; change (byte_val "9") with 57 in *;
        change (byte_val "a") with 97 in *; change (byte_val "f") with 102 in *;
        change (byte_val "A") with 65 in *; change (byte_val "F") with 70 in *;
        lia. }
      lia.
Qed.

Lemma HexToECDSA_Ok_inv env s key :
  HexToECDSA env s = Ok key ->
  String.length s = 64%nat /\ all_hex s = true /\ 0 < D key < secp256k1N.
Proof.
  unfold HexToECDSA.
  destruct (hex_DecodeString s) as [b|[c|]] eqn:H; try discriminate.
  destruct (hex_DecodeString_shape _ s b (Nat.le_refl _) H) as (L & A & _).
  unfold ToECDSA.
  destruct (8 * Z.of_nat (List.length b) =? 256) eqn:E8; cbn [negb];
    [|discriminate].
  destruct (big_SetBytes b >=? secp256k1N) eqn:EN; [discriminate|].
  destruct (big_SetBytes b <=? 0) eqn:E0; [discriminate|].
  destruct (ScalarBaseMult env b); [|discriminate].
  intros K. injection K as <-. cbn [D].
  split; [lia|]. split; [exact A | lia].
Qed.

(** X4. A transactor is only ever made from a key written as exactly
    64 hexadecimal digits (after one optional ["0x"]) whose value is a
    scalar from 1 to N-1; that scalar is the one the authorization
    signs with. *)
Theorem createTransactor_key_shape env k client g t g' auth :
  createTransactor env k client g = (t, g', Returns (Ok auth)) ->
  String.length (strings_TrimPrefix k "0x") = 64%nat
  /\ all_hex (strings_TrimPrefix k "0x") = true
  /\ 0 < SignerKey auth < secp256k1N.
Proof.
  intros H.
  destruct (createTransactor_Ok_inv _ _ _ _ _ _ _ H)
    as (key & nonce & chainID & price & K & _ & _ & _ & _ & ->).
  cbn [SignerKey]. exact (HexToECDSA_Ok_inv env _ key K).
Qed.

Lemma createTransactor_key_shape_witness :
  let c := sample_client 7 None 1 in
  let g := sample_flags (f64_of_Z 0) 3000000 in
  exists t g' auth,
    createTransactor (sample_env c) ("0x" ++ sample_key) c g
    = (t, g', Returns (Ok auth))
    /\ String.length (strings_TrimPrefix ("0x" ++ sample_key) "0x") = 64%nat
    /\ all_hex (strings_TrimPrefix ("0x" ++ sample_key) "0x") = true
    /\ 0 < SignerKey auth < secp256k1N.
Proof.
  intros c g. eexists _, _, _. split; [vm_compute; reflexivity|].
  eapply (createTransactor_key_shape (sample_env c) ("0x" ++ sample_key) c g).
  vm_compute; reflexivity.
Defined.

Lemma HexToECDSA_rejects env s :
  String.length s <> 64%nat \/ all_hex s = false ->
  exists e, HexToECDSA env s = Err e.
Proof.
  intros H. destruct (HexToECDSA env s) as [key|e] eqn:K; [|eauto].
  destruct (HexToECDSA_Ok_inv env s key K) as (L & A & _).
  destruct H as [H|H]; [contradiction | congruence].
Qed.

(** X5. A key that is not exactly 64 hexadecimal digits after the
    optional ["0x"] is refused as an invalid private key before any
    query is sent; an upper-case ["0X"] prefix makes it such a key. *)
Theorem createTransactor_malformed_key env k client g :
  String.length (strings_TrimPrefix k "0x") <> 64%nat
  \/ all_hex (strings_TrimPrefix k "0x") = false ->
  exists e,
    createTransactor env k client g =
    ([], g, Returns (Err ("invalid private key: " ++ e))).
Proof.
  intros H. destruct (HexToECDSA_rejects env _ H) as [e E].
  exists e. unfold createTransactor, bind_or_return, bind, ret.
  rewrite E. reflexivity.
Qed.

Lemma createTransactor_malformed_key_witness :
  let c := sample_client 7 None 1 in
  let g := sample_flags (f64_of_Z 0) 3000000 in
  all_hex (strings_TrimPrefix ("0X" ++ sample_key) "0x") = false /\
  exists e,
    createTransactor (sample_env c) ("0X" ++ sample_key) c g =
    ([], g, Returns (Err ("invalid private key: " ++ e))).
Proof.
  intros c g. split; [reflexivity|].
  apply (createTransactor_malformed_key (sample_env c) ("0X" ++ sample_key) c g).
  right. reflexivity.
Defined.

(** ** [createTransactor]: queries and gas price *)

Lemma createTransactor_frame env k client g :
  exists t r a n,
    createTransactor env k client g = (t, g, Returns r)
    /\ t = firstn n (transactor_queries a)
    /\ (forall auth, r = Ok auth -> (2 <= n)%nat)
    /\ (f64_ltb (f64_of_Z 0) (gasPriceGwei g) = true -> (n <= 2)%nat)
    /\ (f64_ltb (f64_of_Z 0) (gasPriceGwei g) = false ->
        forall auth, r = Ok auth -> n = 3%nat).
Proof.
  unfold createTransactor, bind_or_return, call, bind, ret, emit, flag,
    transactor_queries.
  destruct (HexToECDSA env (strings_TrimPrefix k "0x")) as [key|e].
  2:{ exists [], (Err ("invalid private key: " ++ e)), 0, 0%nat.
      repeat split; try discriminate; lia. }
  cbn. set (a := PubkeyToAddress env (PublicKey key)).
  destruct (PendingNonceAt client a) as [nonce|e]; cbn.
  2:{ eexists _, _, a, 1%nat. split; [reflexivity|].
      repeat split; try discriminate; lia. }
  destruct (ChainID client) as [chainID|e]; cbn.
  2:{ eexists _, _, a, 2%nat. split; [reflexivity|].
      repeat split; try discriminate; lia. }
  destruct (f64_ltb (f64_of_Z 0) (gasPriceGwei g)) eqn:P; cbn.
  - eexists _, _, a, 2%nat. split; [reflexivity|].
    repeat split; try discriminate; lia.
  - destruct (SuggestGasPrice client) as [price|e]; cbn;
      (eexists _, _, a, 3%nat; split; [reflexivity|];
       repeat split; try discriminate; lia).
Qed.



(** X7. The network is asked for a gas price exactly when the caller
    supplied none above 0: with a supplied price no suggestion is
    queried, and without one every transactor that is created has
    queried it. *)
Theorem createTransactor_suggestion env k client g t g' o :
  createTransactor env k client g = (t, g', o) ->
  (f64_ltb (f64_of_Z 0) (gasPriceGwei g) = true ->
   ~ In EvSuggestGasPrice t)
  /\ (f64_ltb (f64_of_Z 0) (gasPriceGwei g) = false ->
      forall auth, o = Returns (Ok auth) -> In EvSuggestGasPrice t).
Proof.
  intros H.
  destruct (createTransactor_frame env k client g)
    as (t1 & r & a & n & E & T & _ & P & Q).
  rewrite E in H. injection H as <- <- <-. subst t1. split.
  - intros S. specialize (P S). unfold transactor_queries.
    destruct n as [|[|[|n]]]; cbn; try lia;
      intros I; repeat (destruct I as [I|I]; try discriminate I); exact I.
  - intros S auth O. injection O as ->.
    rewrite (Q S auth eq_refl). cbn. auto.
Qed.

Lemma createTransactor_suggestion_witness :
  let c := sample_client 7 None 1 in
  let g := sample_flags (f64_of_Z 5) 3000000 in
  exists t g' o,
    createTransactor (sample_env c) sample_key c g = (t, g', o)
    /\ f64_ltb (f64_of_Z 0) (gasPriceGwei g) = true
    /\ ~ In EvSuggestGasPrice t.
Proof.
  intros c g.
  destruct (createTransactor (sample_env c) sample_key c g)
    as [[t g'] o] eqn:E.
  exists t, g', o. split; [reflexivity|]. split; [reflexivity|].
  exact (proj1 (createTransactor_suggestion (sample_env c) sample_key c g
                  t g' o E) eq_refl).
Defined.

Lemma f64_mul_positive x y :
  f64_ltb (f64_of_Z 0) x = true -> f64_ltb (f64_of_Z 0) y = true ->
  match f64_mul x y with
  | S754_zero _ => True
  | S754_finite s _ _ => s = false
  | S754_infinity _ | S754_nan => True
  end.
Proof.
  unfold f64_ltb, f64_mul, SFltb.
  destruct x as [sx|sx| |sx mx ex], y as [sy|sy| |sy my ey];
    try destruct sx; try destruct sy; cbn; try discriminate; try exact (fun _ _ => I).
  intros _ _. unfold binary_round_aux.
  repeat match goal with
         | |- context [let '(_, _) := ?p in _] => destruct p
         end.
  destruct (shr_m _); try exact I.
  destruct (_ <=? _); [reflexivity | exact I].
Qed.

Lemma int64_of_float64_positive indefinite x :
  match x with
  | S754_finite s _ _ => s = false
  | _ => True
  end ->
  0 <= int64_of_float64 indefinite x <= int64_max
  \/ int64_of_float64 indefinite x = indefinite.
Proof.
  unfold int64_of_float64.
  destruct x as [s|s| |s m e]; intros H; auto.
  - left. unfold int64_max. lia.
  - subst s.
    destruct ((int64_min <=? Z.shiftl (Z.pos m) e)
              && (Z.shiftl (Z.pos m) e <=? int64_max)) eqn:R; [|auto].
    left. apply andb_prop in R as [_ R].
    split; [apply Z.shiftl_nonneg; lia | lia].
Qed.

(** X8. A supplied gas price above 0 never turns into a negative
    price that fits 64 bits: the stored price is between 0 and
    2^63 - 1, or it is what the platform gives for a conversion out of
    range. *)
Theorem createTransactor_supplied_price env k client g t g' auth :
  f64_ltb (f64_of_Z 0) (gasPriceGwei g) = true ->
  createTransactor env k client g = (t, g', Returns (Ok auth)) ->
  exists price,
    GasPrice auth = Some price
    /\ (0 <= price <= int64_max \/ price = float_indefinite env).
Proof.
  intros S H.
  destruct (createTransactor_Ok_inv _ _ _ _ _ _ _ H)
    as (key & nonce & chainID & price & _ & _ & _ & R & _ & ->).
  exists price. split; [reflexivity|].
  destruct R as [[_ ->]|[R _]]; [|congruence].
  apply int64_of_float64_positive.
  pose proof (f64_mul_positive (gasPriceGwei g) (f64_of_Z 1000000000) S
                eq_refl) as M.
  destruct (f64_mul _ _); auto.
Qed.

Lemma createTransactor_supplied_price_witness :
  let c := sample_client 7 None 1 in
  let g := sample_flags (f64_of_Z 30) 3000000 in
  f64_ltb (f64_of_Z 0) (gasPriceGwei g) = true /\
  exists t g' auth,
    createTransactor (sample_env c) sample_key c g = (t, g', Returns (Ok auth))
    /\ exists price,
         GasPrice auth = Some price
         /\ (0 <= price <= int64_max \/ price = float_indefinite (sample_env c)).
Proof.
  intros c g. split; [reflexivity|].
  eexists _, _, _. split; [vm_compute; reflexivity|].
  eapply (createTransactor_supplied_price (sample_env c) sample_key c g);
    [reflexivity | vm_compute; reflexivity].
Defined.

(** ** [createTransactor]: whole prices convert exactly *)

Lemma digits2_pos_size p : digits2_pos p = Pos.size p.
Proof. induction p; cbn; congruence. Qed.

Lemma iter_pos_iter {A} (f : A -> A) p : forall x,
  iter_pos f p x = Pos.iter f x p.
Proof.
  induction p as [p IH|p IH|]; intros x; cbn;
    [|rewrite !IH; reflexivity|reflexivity].
  rewrite !IH. rewrite !Pos.iter_swap. reflexivity.
Qed.

Lemma shiftl_add q a b :
  Pos.shiftl (Pos.shiftl q a) b = Pos.shiftl q (a + b).
Proof.
  destruct a as [|a], b as [|b]; cbn; try reflexivity.
  rewrite Pos.add_comm. symmetry. apply Pos.iter_add.
Qed.

Lemma size_shiftl q n :
  Z.pos (Pos.size (Pos.shiftl q n)) = Z.pos (Pos.size q) + Z.of_N n.
Proof.
  destruct n as [|k]; cbn [Pos.shiftl Z.of_N]; [lia|].
  induction k as [|k IH] using Pos.peano_ind.
  - cbn. lia.
  - rewrite Pos.iter_succ. cbn [Pos.size]. lia.
Qed.

Lemma pos_shiftl_value q n :
  Z.pos (Pos.shiftl q n) = Z.pos q * 2 ^ Z.of_N n.
Proof.
  destruct n as [|k]; cbn [Pos.shiftl Z.of_N]; [lia|].
  induction k as [|k IH] using Pos.peano_ind.
  - cbn. lia.
  - rewrite Pos.iter_succ, Pos2Z.inj_succ, Z.pow_succ_r by lia.
    rewrite Pos2Z.inj_xO, IH. ring.
Qed.

Lemma shiftl_mul a b x y :
  (Pos.shiftl a x * Pos.shiftl b y)%positive = Pos.shiftl (a * b) (x + y).
Proof.
  apply Pos2Z.inj. rewrite Pos2Z.inj_mul, !pos_shiftl_value, Pos2Z.inj_mul.
  rewrite N2Z.inj_add, Z.pow_add_r by lia. ring.
Qed.

Lemma size_bound p k : Z.pos p < 2 ^ k -> Z.pos (Pos.size p) <= k.
Proof.
  intros H. assert (0 <= k).
  { destruct (Z.le_gt_cases 0 k); [assumption|].
    rewrite Z.pow_neg_r in H by lia. lia. }
  pose proof (Pos.size_le p) as L.
  apply Pos2Z.pos_le_pos in L. rewrite Pos2Z.inj_pow in L.
  destruct (Z.le_gt_cases (Z.pos (Pos.size p)) k) as [|G]; [assumption|].
  assert (M : 2 ^ (k + 1) <= 2 ^ Z.pos (Pos.size p))
    by (apply Z.pow_le_mono_r; lia).
  rewrite Z.pow_add_r in M by lia. change (2 ^ 1) with 2 in M.
  lia.
Qed.

Lemma size_mono p q : (p <= q)%positive -> Z.pos (Pos.size p) <= Z.pos (Pos.size q).
Proof.
  intros H. apply size_bound.
  pose proof (Pos.size_gt q) as G.
  apply Pos2Z.pos_lt_pos in G. rewrite Pos2Z.inj_pow in G. lia.
Qed.

Lemma shr_shiftl q k e :
  shr {| shr_m := Z.pos (Pos.shiftl q (Npos k));
         shr_r := false; shr_s := false |} e (Z.pos k)
  = ({| shr_m := Z.pos q; shr_r := false; shr_s := false |}, e + Z.pos k).
Proof.
  unfold shr. f_equal. rewrite iter_pos_iter. cbn [Pos.shiftl].
  induction k as [|k IH] using Pos.peano_ind.
  - reflexivity.
  - rewrite Pos.iter_succ_r, Pos.iter_succ. cbn [shr_1 orb]. exact IH.
Qed.

(** Rounding a mantissa [q * 2^n], [q] of at most 53 digits, to 53
    digits loses nothing. *)
Lemma binary_round_aux_exact s q n j e :
  Z.of_N j = Z.pos (Pos.size q) + Z.of_N n - 53 ->
  (j <= n)%N ->
  -1074 <= e + Z.of_N j <= 971 ->
  binary_round_aux 53 1024 s (Z.pos (Pos.shiftl q n)) e loc_Exact
  = S754_finite s (Pos.shiftl q (n - j)) (e + Z.of_N j).
Proof.
  intros J L E.
  assert (S1 : Z.pos (Pos.size (Pos.shiftl q n))
               = Z.pos (Pos.size q) + Z.of_N n)
    by apply size_shiftl.
  assert (Q : Pos.shiftl q n = Pos.shiftl (Pos.shiftl q (n - j)) j).
  { rewrite shiftl_add. f_equal. lia. }
  assert (S2 : Z.pos (Pos.size (Pos.shiftl q (n - j))) = 53).
  { rewrite size_shiftl. lia. }
  unfold binary_round_aux, shr_fexp, fexp, emin.
  cbn [Zdigits2 shr_record_of_loc].
  rewrite digits2_pos_size, S1.
  replace (Z.max (Z.pos (Pos.size q) + Z.of_N n + e - 53) (3 - 1024 - 53) - e)
    with (Z.of_N j) by lia.
  destruct j as [|pj]; cbn [Z.of_N] in *.
  - cbn [shr shr_m loc_of_shr_record round_nearest_even Zdigits2
         shr_record_of_loc].
    rewrite N.sub_0_r in *.
    rewrite digits2_pos_size, S2.
    replace (Z.max (53 + e - 53) (3 - 1024 - 53) - e) with 0 by lia.
    cbn [shr shr_m]. rewrite Z.add_0_r.
    destruct (e <=? 1024 - 53) eqn:C; [reflexivity | lia].
  - rewrite Q, shr_shiftl.
    cbn [shr_m loc_of_shr_record round_nearest_even Zdigits2
         shr_record_of_loc].
    rewrite digits2_pos_size, S2.
    replace (Z.max (53 + (e + Z.pos pj) - 53) (3 - 1024 - 53) - (e + Z.pos pj))
      with 0 by lia.
    cbn [shr shr_m].
    destruct (e + Z.pos pj <=? 1024 - 53) eqn:C; [reflexivity | lia].
Qed.

Lemma f64_of_Z_exact q :
  Z.pos (Pos.size q) <= 53 -> f64_of_Z (Z.pos q) = f64_exact q.
Proof.
  intros H. unfold f64_of_Z, binary_normalize, binary_round, shl_align, fexp,
    emin, f64_exact.
  rewrite digits2_pos_size.
  replace (Z.max (Z.pos (Pos.size q) + 0 - 53) (3 - 1024 - 53) - 0)
    with (Z.pos (Pos.size q) - 53) by lia.
  replace (Z.max (Z.pos (Pos.size q) + 0 - 53) (3 - 1024 - 53))
    with (Z.pos (Pos.size q) - 53) by lia.
  destruct (Z.pos (Pos.size q) - 53) as [|p|p] eqn:D; [|lia|].
  - pose proof (binary_round_aux_exact false q 0 0 0) as R.
    cbn [Pos.shiftl Z.of_N N.sub] in R. rewrite R by lia.
    replace (53 - Z.pos (Pos.size q)) with 0 by lia. reflexivity.
  - pose proof (size_shiftl q (Npos p)) as S.
    pose proof (binary_round_aux_exact false (Pos.shiftl q (Npos p)) 0 0
                  (Z.neg p)) as R.
    cbn [Pos.shiftl Z.of_N N.sub] in R, S. rewrite R by lia.
    replace (53 - Z.pos (Pos.size q)) with (Z.pos p) by lia.
    rewrite Z.add_0_r. reflexivity.
Qed.

Lemma f64_mul_exact a b :
  Z.pos (Pos.size (a * b)) <= 53 ->
  f64_mul (f64_exact a) (f64_exact b) = f64_exact (a * b).
Proof.
  intros H.
  assert (Ha : Z.pos (Pos.size a) <= Z.pos (Pos.size (a * b)))
    by (apply size_mono; nia).
  assert (Hb : Z.pos (Pos.size b) <= Z.pos (Pos.size (a * b)))
    by (apply size_mono; nia).
  unfold f64_mul, f64_exact, SFmul. cbn [xorb].
  rewrite shiftl_mul.
  rewrite (binary_round_aux_exact false (a * b) _
             (Z.to_N (Z.pos (Pos.size (a * b)) + 53
                      - Z.pos (Pos.size a) - Z.pos (Pos.size b))))
    by lia.
  f_equal; [f_equal; lia | lia].
Qed.

Lemma int64_of_f64_exact indefinite q :
  Z.pos (Pos.size q) <= 53 ->
  int64_of_float64 indefinite (f64_exact q) = Z.pos q.
Proof.
  intros H. unfold int64_of_float64, f64_exact.
  assert (V : Z.shiftl (Z.pos (Pos.shiftl q (Z.to_N (53 - Z.pos (Pos.size q)))))
                (Z.pos (Pos.size q) - 53) = Z.pos q).
  { rewrite pos_shiftl_value.
    replace (Z.pos (Pos.size q) - 53) with (- (53 - Z.pos (Pos.size q))) by lia.
    rewrite Z.shiftl_opp_r, Z.shiftr_div_pow2 by lia.
    rewrite Z2N.id by lia. apply Z.div_mul.
    apply Z.pow_nonzero; lia. }
  rewrite V.
  assert (B : Z.pos q < 2 ^ 53).
  { pose proof (Pos.size_gt q) as G. apply Pos2Z.pos_lt_pos in G.
    rewrite Pos2Z.inj_pow in G.
    assert (2 ^ Z.pos (Pos.size q) <= 2 ^ 53)
      by (apply Z.pow_le_mono_r; lia).
    lia. }
  unfold int64_min, int64_max.
  destruct ((- 2 ^ 63 <=? Z.pos q) && (Z.pos q <=? 2 ^ 63 - 1)) eqn:R;
    [reflexivity|].
  apply andb_false_iff in R. destruct R as [R|R]; lia.
Qed.

(** X9. A whole number of gwei is converted without loss as long
    as the amount in wei stays below 2^53: for every whole price [n]
    from 1 up to 9007199 gwei the authorization carries exactly
    [n * 10^9] wei, on every platform. *)
Theorem createTransactor_whole_gwei env k client g t g' auth n :
  1 <= n -> n * 1000000000 < 2 ^ 53 ->
  gasPriceGwei g = f64_of_Z n ->
  createTransactor env k client g = (t, g', Returns (Ok auth)) ->
  GasPrice auth = Some (n * 1000000000).
Proof.
  intros N B G H.
  destruct (createTransactor_Ok_inv _ _ _ _ _ _ _ H)
    as (key & nonce & chainID & price & _ & _ & _ & R & _ & ->).
  cbn [GasPrice]. f_equal.
  destruct n as [|a|a]; try lia.
  assert (Sa : Z.pos (Pos.size a) <= 53) by (apply size_bound; lia).
  assert (Sp : Z.pos (Pos.size (a * 1000000000)) <= 53)
    by (apply size_bound; lia).
  unfold gas_price_rule in R. rewrite G in R.
  rewrite (f64_of_Z_exact a Sa) in R.
  change (f64_of_Z 1000000000) with (f64_exact 1000000000) in R.
  rewrite (f64_mul_exact a 1000000000 Sp) in R.
  rewrite (int64_of_f64_exact _ _ Sp) in R.
  destruct R as [[_ ->]|[R _]]; [lia | discriminate R].
Qed.

Lemma createTransactor_whole_gwei_witness :
  let c := sample_client 7 None 1 in
  let g := sample_flags (f64_of_Z 9007199) 3000000 in
  1 <= 9007199 /\ 9007199 * 1000000000 < 2 ^ 53 /\
  exists t g' auth,
    createTransactor (sample_env c) sample_key c g = (t, g', Returns (Ok auth))
    /\ GasPrice auth = Some (9007199 * 1000000000).
Proof.
  intros c g. split; [lia|]. split; [lia|].
  eexists _, _, _. split; [vm_compute; reflexivity|].
  eapply (createTransactor_whole_gwei (sample_env c) sample_key c g);
    [lia | lia | reflexivity | vm_compute; reflexivity].
Defined.

(** ** [createTransactor]: the authorization *)

(** X10. Below 2^63 the sequence number is carried as fetched: a
    transactor made for an account whose pending sequence number is
    under 2^63 names the address of the key, carries that number as
    its nonce, transfers no value, and has the gas limit of the flag. *)
Theorem createTransactor_authorization env k client g t g' auth nonce :
  createTransactor env k client g = (t, g', Returns (Ok auth)) ->
  PendingNonceAt client (From auth) = Ok nonce ->
  0 <= nonce < 2 ^ 63 ->
  (exists key,
      HexToECDSA env (strings_TrimPrefix k "0x") = Ok key
      /\ From auth = PubkeyToAddress env (PublicKey key)
      /\ SignerKey auth = D key)
  /\ Nonce auth = Some nonce
  /\ Value auth = Some 0
  /\ GasLimit auth = gasLimit g.
Proof.
  intros H N R.
  destruct (createTransactor_Ok_inv _ _ _ _ _ _ _ H)
    as (key & n & chainID & price & K & N' & _ & _ & _ & ->).
  cbn [From Nonce Value GasLimit SignerKey] in *.
  rewrite N' in N. injection N as N. subst n.
  split; [exists key; auto|]. split; [|auto].
  unfold int64_of_uint64. destruct (nonce <? 2 ^ 63) eqn:E; [reflexivity | lia].
Qed.

Lemma createTransactor_authorization_witness :
  let c := sample_client 41 None 1 in
  let g := sample_flags (f64_of_Z 0) 3000000 in
  0 <= 41 < 2 ^ 63 /\
  exists t g' auth,
    createTransactor (sample_env c) sample_key c g = (t, g', Returns (Ok auth))
    /\ PendingNonceAt c (From auth) = Ok 41
    /\ Nonce auth = Some 41
    /\ Value auth = Some 0
    /\ GasLimit auth = 3000000.
Proof.
  intros c g. split; [lia|].
  destruct (createTransactor (sample_env c) sample_key c g)
    as [[t g'] o] eqn:E.
  pose proof E as E'. vm_compute in E'. injection E' as <- <- <-.
  eexists _, _, _. split; [exact E|]. split; [reflexivity|].
  exact (proj2 (createTransactor_authorization (sample_env c) sample_key c g
                  _ _ _ 41 E eq_refl ltac:(lia))).
Defined.

(** ** [main]: the course of a run *)

Lemma WaitMined_frame ctx b tx : forall fuel tick g,
  exists n o,
    WaitMined_from ctx b tx fuel tick g
    = (repeat (EvTransactionReceipt tx) n, g, o)
    /\ (n <= fuel)%nat
    /\ (forall msg, o <> Fatal msg)
    /\ (o = Waiting -> n = fuel).
Proof.
  induction fuel as [|fuel IH]; intros tick g.
  - exists 0%nat, Waiting. repeat split; try discriminate; auto.
  - rewrite WaitMined_from_step.
    destruct (TransactionReceipt b tick tx) as [receipt|e].
    + exists 1%nat, (Returns (Ok receipt)).
      repeat split; try discriminate; lia.
    + destruct (ctx_Done ctx (S tick)).
      * exists 1%nat, (Returns (Err "context deadline exceeded")).
        repeat split; try discriminate; lia.
      * destruct (IH (S tick) g) as (n & o & E & L & F & W). rewrite E.
        exists (S n), o. repeat split; auto; try lia.
Qed.

Lemma main_report_frame receipt instance g :
  exists t,
    main_report receipt instance g = (t, g, Returns tt)
    /\ Forall (fun e => is_print e || is_verification e = true) t
    /\ (In success_notice t <-> Status receipt = 1)
    /\ (In failure_notice t <-> Status receipt <> 1).
Proof.
  destruct (Z.eq_dec (Status receipt) 1) as [S|S].
  - eexists. split; [apply main_report_success; exact S|].
    split; [|split].
    + unfold report_line.
      destruct (Name instance), (Symbol instance), (Decimals instance);
        repeat constructor.
    + split; [intros _; exact S | intros _; left; reflexivity].
    + split; [|contradiction].
      intros I. exfalso. revert I.
      rewrite !in_app_iff. cbn [In].
      intros [[H|[H|[H|H]]]|[[H|H]|[H|H]]]; try discriminate H;
        revert H; apply report_line_no_failure; discriminate.
  - eexists. split; [apply main_report_failure; exact S|].
    split; [repeat constructor|]. split.
    + split; [|contradiction]. intros [H|[]]. discriminate H.
    + split; [intros _; exact S | intros _; left; reflexivity].
Qed.

(** What the flag check leaves behind: its trace is empty or the
    prompt, the flags are as they were or have the typed key, and a
    [false] answer means every mandatory flag is now set. *)
Lemma flags_missing_cases env g :
  exists t0 g0 o0,
    flags_missing env g = (t0, g0, o0)
    /\ (o0 <> Waiting)
    /\ ((t0 = [] /\ g0 = g /\ (rpcURL g = "" \/ privateKey g <> ""))
        \/ (t0 = prompt_trace /\ rpcURL g <> "" /\ privateKey g = ""
            /\ (g0 = g /\ o0 <> Returns false
                \/ exists key, key <> "" /\ g0 = set_privateKey key g)))
    /\ (o0 = Returns false ->
        rpcURL g0 <> "" /\ privateKey g0 <> "" /\ tokenName g0 <> ""
        /\ tokenSymbol g0 <> "" /\ totalSupply g0 <> "").
Proof.
  unfold flags_missing, or_else, and_then, is_empty, bind, flag, ret.
  destruct g as [rpc key name sym dec sup gas gwei].
  cbn -[promptForPrivateKey].
  destruct rpc as [|r0 rpc]; cbn -[promptForPrivateKey].
  { eexists _, _, _. split; [reflexivity|]. split; [discriminate|].
    split; [left; auto | discriminate]. }
  destruct key as [|k0 key]; cbn -[promptForPrivateKey].
  - match goal with
    | |- context [promptForPrivateKey env ?g] =>
        destruct (promptForPrivateKey_cases env g)
          as [(e & R & ->)|[(k & R & T & ->)|(k & R & T & ->)]]
    end; cbn.
    + eexists _, _, _. split; [reflexivity|]. split; [discriminate|].
      split; [|discriminate].
      right. repeat split; try discriminate. left. split; [reflexivity|discriminate].
    + eexists _, _, _. split; [reflexivity|]. split; [discriminate|].
      split; [|discriminate].
      right. repeat split; try discriminate. left. split; [reflexivity|discriminate].
    + destruct name as [|n0 name], sym as [|s0 sym], sup as [|u0 sup]; cbn;
        (eexists _, _, _; split; [reflexivity|]; split; [discriminate|]; split;
         [right; repeat split; try discriminate; right;
          exists (strings_TrimSpace env k); split; [exact T | reflexivity]
         | try discriminate]).
      intros _. cbn. repeat split; try discriminate. exact T.
  - destruct name as [|n0 name], sym as [|s0 sym], sup as [|u0 sup]; cbn;
      (eexists _, _, _; split; [reflexivity|]; split; [discriminate|]; split;
       [left; repeat split; right; discriminate | try discriminate]).
    intros _. cbn. repeat split; discriminate.
Qed.

(** [main], one stage after the other. *)
Lemma main_eq env fuel g :
  main env fuel g =
  let '(t0, g0, o0) := flags_missing env g in
  match o0 with
  | Returns true =>
      (t0, g0,
       Fatal "All flags are required: -rpc, -key, -name, -symbol, -supply")
  | Returns false =>
      let dial := EvDial (rpcURL g0) in
      match ethclient_Dial env (rpcURL g0) with
      | Err e =>
          (t0 ++ [dial], g0,
           Fatal ("Failed to connect to the Ethereum network: " ++ e))
      | Ok client =>
          let '(t1, g1, o1) := createTransactor env (privateKey g0) client g0 in
          match o1 with
          | Returns (Err e) =>
              (t0 ++ dial :: t1, g1,
               Fatal ("Failed to create transactor: " ++ e))
          | Returns (Ok auth) =>
              let decimals := uint8_of_uint (tokenDecimals g1) in
              match parseSupply (totalSupply g1) decimals with
              | Err e =>
                  (t0 ++ dial :: t1, g1,
                   Fatal ("Failed to parse supply: " ++ e))
              | Ok supply =>
                  let deploy :=
                    EvDeploy auth (tokenName g1) (tokenSymbol g1) decimals
                      supply in
                  match DeployERC20Token client auth (tokenName g1)
                          (tokenSymbol g1) decimals supply with
                  | Err e =>
                      (t0 ++ dial :: t1 ++ [deploy], g1,
                       Fatal ("Failed to deploy contract: " ++ e))
                  | Ok (address, tx, instance) =>
                      let '(t2, g2, o2) :=
                        WaitMined context_Background client tx fuel g1 in
                      let before :=
                        t0 ++ dial :: t1 ++ deploy :: announcement address tx
                           ++ t2 in
                      match o2 with
                      | Returns (Ok receipt) =>
                          let '(t3, g3, o3) :=
                            main_report receipt instance g2 in
                          match o3 with
                          | Returns _ =>
                              (before ++ t3 ++ [EvClose], g3, Returns tt)
                          | Fatal msg => (before ++ t3, g3, Fatal msg)
                          | Waiting => (before ++ t3, g3, Waiting)
                          end
                      | Returns (Err e) =>
                          (before, g2,
                           Fatal ("Failed to wait for mining: " ++ e))
                      | Fatal msg => (before, g2, Fatal msg)
                      | Waiting => (before, g2, Waiting)
                      end
                  end
              end
          | Fatal msg => (t0 ++ dial :: t1, g1, Fatal msg)
          | Waiting => (t0 ++ dial :: t1, g1, Waiting)
          end
      end
  | Fatal msg => (t0, g0, Fatal msg)
  | Waiting => (t0, g0, Waiting)
  end%list.
Proof.
  unfold main, bind_or_fatal, bind, call, emit, ret, flag, fmt_Printf,
    log_Fatal, announcement.
  destruct (flags_missing env g) as [[t0 g0] [[|]|msg|]];
    cbn -[createTransactor WaitMined main_report parseSupply];
    rewrite ?app_nil_r; try reflexivity.
  destruct (ethclient_Dial env (rpcURL g0)) as [client|e];
    cbn -[createTransactor WaitMined main_report parseSupply];
    [|reflexivity].
  destruct (createTransactor env (privateKey g0) client g0)
    as [[t1 g1] [[auth|e]|msg|]];
    cbn -[createTransactor WaitMined main_report parseSupply];
    rewrite ?app_nil_r; try reflexivity.
  destruct (parseSupply (totalSupply g1) (uint8_of_uint (tokenDecimals g1)))
    as [supply|e];
    cbn -[createTransactor WaitMined main_report parseSupply];
    rewrite ?app_nil_r; try reflexivity.
  destruct (DeployERC20Token client auth (tokenName g1) (tokenSymbol g1)
              (uint8_of_uint (tokenDecimals g1)) supply)
    as [[[address tx] instance]|e];
    cbn -[createTransactor WaitMined main_report parseSupply];
    [|reflexivity].
  destruct (WaitMined context_Background client tx fuel g1)
    as [[t2 g2] [[receipt|e]|msg|]];
    cbn -[createTransactor WaitMined main_report parseSupply];
    rewrite ?app_nil_r; try reflexivity.
  destruct (main_report receipt instance g2) as [[t3 g3] [[]|msg|]];
    cbn; rewrite ?app_nil_r;
    repeat (rewrite <- ?app_assoc; cbn [app]); reflexivity.
Qed.

Lemma main_run_intro env fuel g t g' o :
  main env fuel g = (t, g', o) -> main_run env fuel g t g' o.
Proof.
  rewrite main_eq. cbv zeta.
  destruct (flags_missing env g) as [[t0 g0] [[|]|msg|]] eqn:F.
  - intros H. injection H as <- <- <-. apply run_flags_missing. exact F.
  - destruct (ethclient_Dial env (rpcURL g0)) as [client|e] eqn:Dl.
    2:{ intros H. injection H as <- <- <-. eapply run_dial_failed; eauto. }
    destruct (createTransactor_frame env (privateKey g0) client g0)
      as (t1 & r & a & k & C & _).
    rewrite C. destruct r as [auth|e].
    2:{ intros H. injection H as <- <- <-.
        eapply run_transactor_failed; eauto. }
    destruct (parseSupply (totalSupply g0) (uint8_of_uint (tokenDecimals g0)))
      as [supply|e] eqn:P.
    2:{ intros H. injection H as <- <- <-. eapply run_supply_invalid; eauto. }
    destruct (DeployERC20Token client auth (tokenName g0) (tokenSymbol g0)
                (uint8_of_uint (tokenDecimals g0)) supply)
      as [[[address tx] instance]|e] eqn:Dp.
    2:{ intros H. injection H as <- <- <-. eapply run_deploy_failed; eauto. }
    unfold WaitMined.
    destruct (WaitMined_frame context_Background client tx fuel 0%nat g0)
      as (n & o2 & W & L & NF & NW).
    rewrite W. destruct o2 as [[receipt|e]|msg|].
    + destruct (main_report_frame receipt instance g0) as (t3 & R & _).
      rewrite R. cbv beta iota zeta. intros H. injection H as <- <- <-.
      repeat (rewrite <- app_assoc || rewrite <- app_comm_cons).
      eapply run_mined; eauto.
    + exfalso.
      destruct (WaitMined_from_no_timeout _ _ _ _ _ _ _ _ W) as [rc Q].
      discriminate Q.
    + exfalso. exact (NF msg eq_refl).
    + intros H. injection H as <- <- <-. rewrite (NW eq_refl) in *.
      eapply run_waiting; eauto.
  - intros H. injection H as <- <- <-. apply run_prompt_failed. exact F.
  - exfalso.
    destruct (flags_missing_cases env g) as (tt0 & g1 & o1 & E & NW & _).
    rewrite F in E. injection E as <- <- <-. exact (NW eq_refl).
Qed.

(** ** [main]: what a run does and does not do *)

Lemma filter_none {A} (p q : A -> bool) l :
  Forall (fun x => q x = true) l ->
  (forall x, q x = true -> p x = false) ->
  filter p l = [].
Proof.
  intros H D. induction H as [|x l Hx _ IH]; [reflexivity|].
  cbn. rewrite (D x Hx). exact IH.
Qed.

Lemma filter_repeat {A} (p : A -> bool) x n :
  filter p (repeat x n) = if p x then repeat x n else [].
Proof.
  induction n as [|n IH]; cbn; [destruct (p x); reflexivity|].
  rewrite IH. destruct (p x); reflexivity.
Qed.

Lemma flags_missing_trace env g t0 g0 o0 :
  flags_missing env g = (t0, g0, o0) ->
  Forall (fun e => is_print e || is_stdin e = true) t0.
Proof.
  intros H.
  destruct (flags_missing_cases env g) as (t & g1 & o1 & E & _ & S & _).
  rewrite H in E. injection E as <- <- <-.
  destruct S as [(-> & _)|(-> & _)]; repeat constructor.
Qed.

Lemma createTransactor_trace env k client g t g' o :
  createTransactor env k client g = (t, g', o) ->
  Forall (fun e => is_query e = true) t.
Proof.
  intros H.
  destruct (createTransactor_frame env k client g)
    as (t1 & r & a & n & E & -> & _).
  rewrite E in H. injection H as <- <- <-.
  destruct n as [|[|[|n]]]; cbn; rewrite ?firstn_nil; repeat constructor.
Qed.

Lemma main_report_trace receipt instance g t g' o :
  main_report receipt instance g = (t, g', o) ->
  Forall (fun e => is_print e || is_verification e = true) t.
Proof.
  intros H. destruct (main_report_frame receipt instance g) as (t3 & E & F & _).
  rewrite E in H. injection H as <- <- <-. exact F.
Qed.

(** Brings the shape of every stage's trace into the context. *)
Ltac stage_traces :=
  repeat match goal with
         | H : flags_missing _ _ = (?t, _, _) |- _ =>
             lazymatch goal with
             | _ : Forall _ t |- _ => fail
             | _ => pose proof (flags_missing_trace _ _ _ _ _ H)
             end
         | H : createTransactor _ _ _ _ = (?t, _, _) |- _ =>
             lazymatch goal with
             | _ : Forall _ t |- _ => fail
             | _ => pose proof (createTransactor_trace _ _ _ _ _ _ _ H)
             end
         | H : main_report _ _ _ = (?t, _, _) |- _ =>
             lazymatch goal with
             | _ : Forall _ t |- _ => fail
             | _ => pose proof (main_report_trace _ _ _ _ _ _ H)
             end
         end.

(** Computes [filter p] over a trace of [main] for a concrete [p]. *)
Ltac filter_stages :=
  unfold announcement;
  repeat (rewrite filter_app || rewrite filter_repeat
          || cbn [filter is_deploy is_dial is_close is_stdin is_receipt_query
                  is_verification is_print is_query is_network app]);
  repeat match goal with
         | H : Forall _ ?t |- context [filter ?p ?t] =>
             rewrite (filter_none p _ t H)
               by (intros []; cbn; congruence)
         end;
  cbn [app List.length].

(** X11. At most one connection is opened and at most one deployment
    is submitted in a run, and the deployment, if any, comes after
    the connection. *)
Theorem main_single_submission env fuel g t g' o :
  main env fuel g = (t, g', o) ->
  (List.length (filter is_dial t) <= 1)%nat
  /\ (List.length (filter is_deploy t) <= List.length (filter is_dial t))%nat.
Proof.
  intros H. apply main_run_intro in H.
  destruct H; stage_traces; filter_stages; split; lia.
Qed.

Lemma main_single_submission_witness :
  let c := sample_client 7 (Some 1%nat) 1 in
  let g := sample_flags (f64_of_Z 0) 3000000 in
  exists t g' o,
    main (sample_env c) 5 g = (t, g', o)
    /\ (List.length (filter is_dial t) <= 1)%nat
    /\ (List.length (filter is_deploy t) <= List.length (filter is_dial t))%nat.
Proof.
  intros c g.
  destruct (main (sample_env c) 5 g) as [[t g'] o] eqn:E.
  exists t, g', o. split; [reflexivity|].
  exact (main_single_submission (sample_env c) 5 g t g' o E).
Defined.

Lemma flags_missing_flags env g t0 g0 o0 :
  flags_missing env g = (t0, g0, o0) ->
  rpcURL g0 = rpcURL g /\ tokenName g0 = tokenName g
  /\ tokenSymbol g0 = tokenSymbol g /\ tokenDecimals g0 = tokenDecimals g
  /\ totalSupply g0 = totalSupply g /\ gasLimit g0 = gasLimit g
  /\ gasPriceGwei g0 = gasPriceGwei g
  /\ (g0 = g
      \/ privateKey g = "" /\ exists key, key <> "" /\ g0 = set_privateKey key g).
Proof.
  intros H.
  destruct (flags_missing_cases env g) as (t & g1 & o1 & E & _ & S & _).
  rewrite H in E. injection E as <- <- <-.
  destruct S as [(_ & -> & _)|(_ & _ & K & [(-> & _)|(key & N & ->)])];
    repeat split; auto; right; eauto.
Qed.

(** X12. Whatever [main] deploys is what the flags say: the token
    name and symbol as given, the decimals flag reduced to its low
    eight bits, and the supply flag scaled by ten to that many
    decimals, under the authorization [createTransactor] made for the
    key in use over the connection to the given endpoint. *)
Theorem main_deploys_flags env fuel g t g' o auth name symbol decimals supply :
  main env fuel g = (t, g', o) ->
  In (EvDeploy auth name symbol decimals supply) t ->
  name = tokenName g /\ symbol = tokenSymbol g
  /\ decimals = tokenDecimals g mod 256
  /\ parseSupply (totalSupply g) decimals = Ok supply
  /\ exists client t1,
       ethclient_Dial env (rpcURL g) = Ok client
       /\ createTransactor env (privateKey g') client g'
          = (t1, g', Returns (Ok auth)).
Proof.
  intros H I.
  assert (J : In (EvDeploy auth name symbol decimals supply)
                 (filter is_deploy t))
    by (apply filter_In; split; [exact I | reflexivity]).
  clear I. apply main_run_intro in H.
  destruct H as [ | | | | | ? ? ? ? ? ? ? F Dl C P
                  | ? ? ? ? ? ? ? ? ? F Dl C P
                  | ? ? ? ? ? ? ? ? ? ? ? ? F Dl C P ];
    stage_traces; revert J; filter_stages; intros J; cbn [In] in J;
    first
      [ contradiction
      | destruct J as [J|[]]; injection J as <- <- <- <- <-;
        destruct (flags_missing_flags _ _ _ _ _ F)
          as (Eu & En & Es & Ed & Et & _);
        rewrite <- Eu, <- En, <- Es, <- Ed, <- Et;
        repeat split; eauto ].
Qed.

Lemma main_deploys_flags_witness :
  let c := sample_client 7 (Some 1%nat) 1 in
  let g := {| rpcURL := "http://localhost:8545"; privateKey := sample_key;
              tokenName := "TestCoin"; tokenSymbol := "TST";
              tokenDecimals := 262; totalSupply := "1000";
              gasLimit := 3000000; gasPriceGwei := f64_of_Z 0 |} in
  exists t g' o auth,
    main (sample_env c) 5 g = (t, g', o)
    /\ In (EvDeploy auth "TestCoin" "TST" 6 (1000 * 10 ^ 6)) t
    /\ parseSupply (totalSupply g) 6 = Ok (1000 * 10 ^ 6).
Proof.
  intros c g.
  destruct (main (sample_env c) 5 g) as [[t g'] o] eqn:E.
  assert (I : exists auth, In (EvDeploy auth "TestCoin" "TST" 6 (1000 * 10 ^ 6)) t).
  { vm_compute in E. injection E as <- _ _. eexists. do 4 right. left.
    reflexivity. }
  destruct I as [auth I]. exists t, g', o, auth.
  split; [reflexivity|]. split; [exact I|].
  exact (proj1 (proj2 (proj2 (proj2
           (main_deploys_flags (sample_env c) 5 g t g' o auth _ _ _ _ E I))))).
Defined.

(** X13. A supply that [parseSupply] refuses never reaches the
    network as a deployment: the run ends in [log.Fatal] and no
    deployment was submitted. *)
Theorem main_invalid_supply env fuel g t g' o :
  is_signed_decimal (totalSupply g) = false ->
  main env fuel g = (t, g', o) ->
  (exists msg, o = Fatal msg) /\ filter is_deploy t = [].
Proof.
  intros S H. apply main_run_intro in H.
  destruct H as [ | | | | | ? ? ? ? ? ? ? F Dl C P
                  | ? ? ? ? ? ? ? ? ? F Dl C P
                  | ? ? ? ? ? ? ? ? ? ? ? ? F Dl C P ];
    try (stage_traces; filter_stages; split; [eauto | reflexivity]);
    exfalso;
    destruct (flags_missing_flags _ _ _ _ _ F) as (_ & _ & _ & _ & Et & _);
    rewrite Et in P; rewrite (parseSupply_rejects _ _ S) in P; discriminate P.
Qed.

Lemma main_invalid_supply_witness :
  let c := sample_client 7 (Some 1%nat) 1 in
  let g := {| rpcURL := "http://localhost:8545"; privateKey := sample_key;
              tokenName := "TestCoin"; tokenSymbol := "TST";
              tokenDecimals := 18; totalSupply := "1e6";
              gasLimit := 3000000; gasPriceGwei := f64_of_Z 0 |} in
  is_signed_decimal (totalSupply g) = false /\
  exists t g' o,
    main (sample_env c) 5 g = (t, g', o)
    /\ (exists msg, o = Fatal msg) /\ filter is_deploy t = [].
Proof.
  intros c g. split; [reflexivity|].
  destruct (main (sample_env c) 5 g) as [[t g'] o] eqn:E.
  exists t, g', o. split; [reflexivity|].
  exact (main_invalid_supply (sample_env c) 5 g t g' o eq_refl E).
Defined.

(** X14. The deferred [client.Close()] runs exactly on the runs that
    return: every run that ends in [log.Fatal] after connecting, and
    every run still waiting, leaves the client open. *)
Theorem main_close_iff_returns env fuel g t g' o :
  main env fuel g = (t, g', o) ->
  (In EvClose t <-> o = Returns tt)
  /\ (o = Returns tt -> exists t', t = (t' ++ [EvClose])%list).
Proof.
  intros H. apply main_run_intro in H.
  assert (C : In EvClose t <-> In EvClose (filter is_close t)).
  { rewrite filter_In. tauto. }
  rewrite C. clear C.
  destruct H; stage_traces; filter_stages;
    (split; [split; [intros []; try discriminate; try tauto
                    | intros Q; try discriminate Q; left; reflexivity]
            | intros Q; try discriminate Q]).
  eexists. repeat (rewrite app_assoc || rewrite app_comm_cons). reflexivity.
Qed.

Lemma main_close_iff_returns_witness :
  let c := sample_client 7 (Some 1%nat) 1 in
  let g := sample_flags (f64_of_Z 0) 3000000 in
  exists t g' o,
    main (sample_env c) 5 g = (t, g', o)
    /\ (In EvClose t <-> o = Returns tt)
    /\ (o = Returns tt -> exists t', t = (t' ++ [EvClose])%list).
Proof.
  intros c g.
  destruct (main (sample_env c) 5 g) as [[t g'] o] eqn:E.
  exists t, g', o. split; [reflexivity|].
  exact (main_close_iff_returns (sample_env c) 5 g t g' o E).
Defined.

Lemma flags_missing_network_free env g t0 g0 o0 :
  flags_missing env g = (t0, g0, o0) -> quiet t0.
Proof.
  intros H. apply flags_missing_trace in H. unfold quiet.
  induction H as [|e t P _ IH]; constructor; [|exact IH].
  destruct e; try discriminate P; reflexivity.
Qed.

(** X15. In every run the connection to the given endpoint is the
    first thing that touches the network: what comes before it is at
    most the prompt, and a run that never connects never touches the
    network at all. *)
Theorem main_connects_first env fuel g t g' o :
  main env fuel g = (t, g', o) ->
  exists before after,
    t = (before ++ after)%list
    /\ quiet before
    /\ (after = [] \/ exists rest, after = EvDial (rpcURL g) :: rest).
Proof.
  intros H. apply main_run_intro in H.
  destruct H as [ t0 g0 F | t0 g0 m F | t0 g0 e F | t0 g0 c t1 e F
                | t0 g0 c t1 a e F | t0 g0 c t1 a s e F
                | t0 g0 c t1 a s ad tx i F
                | t0 g0 c t1 a s ad tx i n r t3 F ];
    pose proof (flags_missing_network_free _ _ _ _ _ F) as Q;
    destruct (flags_missing_flags _ _ _ _ _ F) as (<- & _).
  1, 2: exists t0, []; rewrite app_nil_r; auto.
  all: exists t0; eexists; split; [reflexivity|]; split; [exact Q|];
    right; eauto.
Qed.

Lemma main_connects_first_witness :
  let c := sample_client 7 (Some 1%nat) 1 in
  let g := set_privateKey "" (sample_flags (f64_of_Z 0) 3000000) in
  exists t g' o,
    main (sample_env_typing (Ok (sample_key ++ LF)) c) 5 g = (t, g', o)
    /\ exists before after,
         t = (before ++ after)%list
         /\ quiet before
         /\ (after = [] \/ exists rest, after = EvDial (rpcURL g) :: rest).
Proof.
  intros c g.
  destruct (main (sample_env_typing (Ok (sample_key ++ LF)) c) 5 g)
    as [[t g'] o] eqn:E.
  exists t, g', o. split; [reflexivity|].
  exact (main_connects_first _ 5 g t g' o E).
Defined.

(** X16. The key is asked for on standard input exactly when an
    endpoint was given and no key was: a run reads standard input if
    and only if [-rpc] is set and [-key] is not, and then it reads
    once. *)
Theorem main_prompts_iff env fuel g t g' o :
  main env fuel g = (t, g', o) ->
  (In EvReadString t <-> rpcURL g <> "" /\ privateKey g = "")
  /\ (List.length (filter is_stdin t) <= 1)%nat.
Proof.
  intros H. apply main_run_intro in H.
  assert (C : In EvReadString t <-> In EvReadString (filter is_stdin t)).
  { rewrite filter_In. tauto. }
  rewrite C. clear C.
  assert (P : forall t0 g0 o0,
             flags_missing env g = (t0, g0, o0) ->
             (In EvReadString (filter is_stdin t0)
              <-> rpcURL g <> "" /\ privateKey g = "")
             /\ (List.length (filter is_stdin t0) <= 1)%nat).
  { intros t0 g0 o0 F.
    destruct (flags_missing_cases env g) as (t1 & g1 & o1 & E & _ & S & _).
    rewrite F in E. injection E as <- <- <-.
    destruct S as [(-> & _ & S)|(-> & U & K & _)]; cbn.
    - split; [|lia]. split; [intros []|]. intros [U K].
      destruct S; contradiction.
    - split; [|lia]. split; [auto | intros _; left; reflexivity]. }
  destruct H as [ ? ? F | ? ? ? F | ? ? ? F | ? ? ? ? ? F | ? ? ? ? ? ? F
                | ? ? ? ? ? ? ? F | ? ? ? ? ? ? ? ? ? F
                | ? ? ? ? ? ? ? ? ? ? ? ? F ];
    pose proof (P _ _ _ F) as Q; clear P;
    try exact Q;
    stage_traces; filter_stages; rewrite ?app_nil_r; exact Q.
Qed.

Lemma main_prompts_iff_witness :
  let c := sample_client 7 (Some 1%nat) 1 in
  let g := set_privateKey "" (sample_flags (f64_of_Z 0) 3000000) in
  exists t g' o,
    main (sample_env_typing (Ok (sample_key ++ LF)) c) 5 g = (t, g', o)
    /\ (In EvReadString t <-> rpcURL g <> "" /\ privateKey g = "")
    /\ (List.length (filter is_stdin t) <= 1)%nat.
Proof.
  intros c g.
  destruct (main (sample_env_typing (Ok (sample_key ++ LF)) c) 5 g)
    as [[t g'] o] eqn:E.
  exists t, g', o. split; [reflexivity|].
  exact (main_prompts_iff _ 5 g t g' o E).
Defined.

(** X17. A run writes no flag but the key, and that only from the
    prompt: the flags at the end are the flags at the start, or the
    key flag was empty and now holds a non-empty typed key. *)
Theorem main_flags_kept env fuel g t g' o :
  main env fuel g = (t, g', o) ->
  g' = g
  \/ privateKey g = "" /\ exists key, key <> "" /\ g' = set_privateKey key g.
Proof.
  intros H. apply main_run_intro in H.
  destruct H as [ ? ? F | ? ? ? F | ? ? ? F | ? ? ? ? ? F | ? ? ? ? ? ? F
                | ? ? ? ? ? ? ? F | ? ? ? ? ? ? ? ? ? F
                | ? ? ? ? ? ? ? ? ? ? ? ? F ];
    exact (proj2 (proj2 (proj2 (proj2 (proj2 (proj2 (proj2
             (flags_missing_flags _ _ _ _ _ F)))))))).
Qed.

Lemma main_flags_kept_witness :
  let c := sample_client 7 (Some 1%nat) 1 in
  let g := set_privateKey "" (sample_flags (f64_of_Z 0) 3000000) in
  exists t g' o,
    main (sample_env_typing (Ok (sample_key ++ LF)) c) 5 g = (t, g', o)
    /\ (g' = g
        \/ privateKey g = ""
           /\ exists key, key <> "" /\ g' = set_privateKey key g).
Proof.
  intros c g.
  destruct (main (sample_env_typing (Ok (sample_key ++ LF)) c) 5 g)
    as [[t g'] o] eqn:E.
  exists t, g', o. split; [reflexivity|].
  exact (main_flags_kept _ 5 g t g' o E).
Defined.

Lemma WaitMined_from_answer ctx b tx : forall fuel tick g t g' receipt,
  WaitMined_from ctx b tx fuel tick g = (t, g', Returns (Ok receipt)) ->
  exists k, (tick <= k < tick + fuel)%nat
            /\ TransactionReceipt b k tx = Ok receipt.
Proof.
  induction fuel as [|fuel IH]; intros tick g t g' receipt H;
    [discriminate H|].
  rewrite WaitMined_from_step in H.
  destruct (TransactionReceipt b tick tx) as [r|e] eqn:E.
  - injection H as _ _ ->. exists tick. split; [lia | exact E].
  - destruct (ctx_Done ctx (S tick)); [discriminate H|].
    destruct (WaitMined_from ctx b tx fuel (S tick) g) as [[t1 g1] o] eqn:W.
    injection H as _ _ ->.
    destruct (IH _ _ _ _ _ W) as (k & L & A). exists k. split; [lia | exact A].
Qed.

(** X18. A run that returns has a receipt the endpoint gave within
    the queries made, and reports on that receipt: with status 1 the
    success notice and the three verification calls, otherwise the
    failure notice and none. *)
Theorem main_returns_reported env fuel g t g' o :
  main env fuel g = (t, g', o) ->
  o = Returns tt ->
  exists client tx k receipt,
    ethclient_Dial env (rpcURL g) = Ok client
    /\ (k < fuel)%nat
    /\ TransactionReceipt client k tx = Ok receipt
    /\ (Status receipt = 1 ->
        In success_notice t
        /\ filter is_verification t = [EvName; EvSymbol; EvDecimals])
    /\ (Status receipt <> 1 ->
        In failure_notice t /\ filter is_verification t = []).
Proof.
  intros H O. apply main_run_intro in H.
  destruct H as [ | | | | | |
                | t0 g0 client t1 auth supply address tx instance n receipt t3
                    F Dl C P Dp L W R ];
    try discriminate O.
  destruct (WaitMined_from_answer _ _ _ _ _ _ _ _ _ W) as (k & Lk & A).
  destruct (flags_missing_flags _ _ _ _ _ F) as (Eu & _).
  exists client, tx, k, receipt. rewrite <- Eu.
  split; [exact Dl|]. split; [lia|]. split; [exact A|].
  pose proof (flags_missing_trace _ _ _ _ _ F) as T0.
  pose proof (createTransactor_trace _ _ _ _ _ _ _ C) as T1.
  split; intros S.
  - rewrite (main_report_success receipt instance g0 S) in R.
    injection R as <-. split.
    + rewrite !in_app_iff. cbn [In]. rewrite !in_app_iff. cbn [In].
      rewrite !in_app_iff. cbn [In]. auto 12.
    + filter_stages. cbn [filter is_verification success_notice].
      rewrite !report_line_quiet. reflexivity.
  - rewrite (main_report_failure receipt instance g0 S) in R.
    injection R as <-. split.
    + rewrite !in_app_iff. cbn [In]. rewrite !in_app_iff. cbn [In].
      rewrite !in_app_iff. cbn [In]. auto 12.
    + filter_stages. reflexivity.
Qed.

Lemma main_returns_reported_witness :
  let c := sample_client 7 (Some 1%nat) 1 in
  let g := sample_flags (f64_of_Z 0) 3000000 in
  exists t g',
    main (sample_env c) 5 g = (t, g', Returns tt)
    /\ exists client tx k receipt,
         ethclient_Dial (sample_env c) (rpcURL g) = Ok client
         /\ (k < 5)%nat
         /\ TransactionReceipt client k tx = Ok receipt
         /\ (Status receipt = 1 ->
             In success_notice t
             /\ filter is_verification t = [EvName; EvSymbol; EvDecimals])
         /\ (Status receipt <> 1 ->
             In failure_notice t /\ filter is_verification t = []).
Proof.
  intros c g. eexists _, _. split; [vm_compute; reflexivity|].
  eapply (main_returns_reported (sample_env c) 5 g);
    [vm_compute; reflexivity | reflexivity].
Defined.

(** X19. A run is left waiting only in the confirmation step: the
    receipt is never queried more often than the fuel allows, and a
    run still waiting has submitted its one deployment and used all
    its queries. *)
Theorem main_waits_after_deploy env fuel g t g' o :
  main env fuel g = (t, g', o) ->
  (List.length (filter is_receipt_query t) <= fuel)%nat
  /\ (o = Waiting ->
      List.length (filter is_receipt_query t) = fuel
      /\ List.length (filter is_deploy t) = 1%nat).
Proof.
  intros H. apply main_run_intro in H.
  destruct H; stage_traces; filter_stages;
    rewrite ?length_app, ?repeat_length; cbn [List.length];
    (split; [lia | intros Q; try discriminate Q; split; lia]).
Qed.

Lemma main_waits_after_deploy_witness :
  let c := sample_client 7 None 1 in
  let g := sample_flags (f64_of_Z 0) 3000000 in
  exists t g' o,
    main (sample_env c) 4 g = (t, g', o)
    /\ (List.length (filter is_receipt_query t) <= 4)%nat
    /\ (o = Waiting ->
        List.length (filter is_receipt_query t) = 4%nat
        /\ List.length (filter is_deploy t) = 1%nat).
Proof.
  intros c g.
  destruct (main (sample_env c) 4 g) as [[t g'] o] eqn:E.
  exists t, g', o. split; [reflexivity|].
  exact (main_waits_after_deploy (sample_env c) 4 g t g' o E).
Defined.

Lemma flags_missing_fatal env g t0 g0 msg :
  flags_missing env g = (t0, g0, Fatal msg) ->
  exists e, stdin_ReadString env = Err e
            /\ msg = "Failed to read private key: " ++ e.
Proof.
  unfold flags_missing, or_else, and_then, is_empty, bind, flag, ret.
  destruct g as [rpc key name sym dec sup gas gwei].
  cbn -[promptForPrivateKey].
  destruct rpc as [|r0 rpc]; cbn -[promptForPrivateKey]; [discriminate|].
  destruct key as [|k0 key]; cbn -[promptForPrivateKey].
  - match goal with
    | |- context [promptForPrivateKey env ?g] =>
        destruct (promptForPrivateKey_cases env g)
          as [(e & R & ->)|[(k & R & T & ->)|(k & R & T & ->)]]
    end; cbn.
    + intros H. injection H as _ _ <-. eauto.
    + discriminate.
    + destruct name, sym, sup; discriminate.
  - destruct name, sym, sup; discriminate.
Qed.

(** X20. [main] ends in [log.Fatal] with one of six messages only:
    the missing-flags message, or the failure of the key read, of the
    connection, of the transactor, of the supply parse or of the
    deployment, each followed by its cause.  The wait for mining is
    not among them: under the background context it never fails. *)
Theorem main_fatal_messages env fuel g t g' msg :
  main env fuel g = (t, g', Fatal msg) ->
  (msg = "All flags are required: -rpc, -key, -name, -symbol, -supply"
   \/ exists e,
        msg = "Failed to read private key: " ++ e
        \/ msg = "Failed to connect to the Ethereum network: " ++ e
        \/ msg = "Failed to create transactor: " ++ e
        \/ msg = "Failed to parse supply: " ++ e
        \/ msg = "Failed to deploy contract: " ++ e)
  /\ forall e, msg <> "Failed to wait for mining: " ++ e.
Proof.
  intros H. apply main_run_intro in H.
  remember (Fatal msg) as o eqn:O.
  destruct H as [ t0 g0 F | t0 g0 m F | t0 g0 e F | t0 g0 c t1 e F
                | t0 g0 c t1 a e F | t0 g0 c t1 a s e F | | ];
    try discriminate O; injection O as <-.
  - split; [left; reflexivity | intros e; discriminate].
  - destruct (flags_missing_fatal _ _ _ _ _ F) as (e & _ & ->).
    split; [right; exists e; auto | intros e'; discriminate].
  - split; [right; exists e; auto | intros e'; discriminate].
  - split; [right; exists e; auto | intros e'; discriminate].
  - split; [right; exists e; auto 6 | intros e'; discriminate].
  - split; [right; exists e; auto 6 | intros e'; discriminate].
Qed.

Lemma main_fatal_messages_witness :
  let c := sample_client 7 None 1 in
  let env :=
    {| ScalarBaseMult := ScalarBaseMult (sample_env c);
       PubkeyToAddress := PubkeyToAddress (sample_env c);
       strings_TrimSpace := ascii_TrimSpace;
       float_indefinite := int64_min;
       stdin_ReadString := Err "EOF";
       ethclient_Dial := fun _ => Err "connection refused" |} in
  let g := sample_flags (f64_of_Z 0) 3000000 in
  exists t g' msg,
    main env 5 g = (t, g', Fatal msg)
    /\ msg = "Failed to connect to the Ethereum network: connection refused"
    /\ forall e, msg <> "Failed to wait for mining: " ++ e.
Proof.
  intros c env g.
  assert (E : main env 5 g =
              ([EvDial "http://localhost:8545"], g,
               Fatal "Failed to connect to the Ethereum network: connection refused"))
    by reflexivity.
  eexists _, _, _. split; [exact E|]. split; [reflexivity|].
  exact (proj2 (main_fatal_messages env 5 g _ _ _ E)).
Defined.

(** ** [promptForPrivateKey] *)

(** X21. The prompt prints one line, reads one line and touches
    nothing else.  It answers [true] exactly when the line read has
    something left after trimming, and then that is the new key flag;
    on a blank line it answers [false] and on a failed read the
    process exits, the flags unchanged in both cases. *)
Theorem promptForPrivateKey_outcomes env g t g' o :
  promptForPrivateKey env g = (t, g', o) ->
  t = prompt_trace
  /\ (o = Returns true ->
      exists line,
        stdin_ReadString env = Ok line
        /\ strings_TrimSpace env line <> ""
        /\ g' = set_privateKey (strings_TrimSpace env line) g)
  /\ (o = Returns false ->
      g' = g
      /\ exists line,
           stdin_ReadString env = Ok line /\ strings_TrimSpace env line = "")
  /\ (forall msg, o = Fatal msg ->
      g' = g
      /\ exists e, stdin_ReadString env = Err e
                   /\ msg = "Failed to read private key: " ++ e)
  /\ o <> Waiting.
Proof.
  intros H.
  destruct (promptForPrivateKey_cases env g)
    as [(e & R & E)|[(k & R & T & E)|(k & R & T & E)]];
    rewrite E in H; injection H as <- <- <-;
    (split; [reflexivity|]).
  - split; [discriminate|]. split; [discriminate|].
    split; [|discriminate].
    intros msg Q. injection Q as <-. eauto.
  - split; [discriminate|]. split; [eauto|].
    split; discriminate.
  - split; [eauto|]. split; [discriminate|].
    split; discriminate.
Qed.

Lemma promptForPrivateKey_outcomes_witness :
  let c := sample_client 7 None 1 in
  let env := sample_env_typing (Ok ("  " ++ sample_key ++ " " ++ LF)) c in
  let g := set_privateKey "" (sample_flags (f64_of_Z 0) 3000000) in
  exists t g' o,
    promptForPrivateKey env g = (t, g', o)
    /\ o = Returns true
    /\ g' = set_privateKey sample_key g.
Proof.
  intros c env g. eexists _, _, _. split; [reflexivity|].
  split; [reflexivity|].
  destruct (proj1 (proj2 (promptForPrivateKey_outcomes env g _ _ _ eq_refl))
              eq_refl) as (line & R & _ & E).
  injection R as <-. exact E.
Defined.
